(** * VeriWeave: result normalisation and PDF report layout

    A shallow embedding of the client's [handleBatchUpload] (the part that
    turns the server's batch response into one unified result) and of
    [exportToPDF] (the jsPDF report writer), both in
    [client/src/App.tsx], with the properties proved about them.

    Conventions of the embedding.
    - A JavaScript number is an exact rational ([Q]).  The response is
      JSON, so it carries neither NaN nor an infinity; rounding of binary
      floating point is not modelled.
    - A property that may be missing is an [option]; [None] is
      [undefined] (JSON [null] is not kept apart from it: every test the
      normaliser makes treats the two alike).
    - Strings are [string] (bytes).
    - What belongs to the JavaScript runtime or to jsPDF and not to this
      repository (printing a number, measuring and splitting text, the
      page size) is a [Variable] of the section that uses it. *)

From Stdlib Require Import ZArith QArith Qround List String Ascii Bool Lia Lqa.
From Stdlib Require Import DecimalString.
Import ListNotations.

Open Scope Q_scope.
Open Scope string_scope.

(** ** A few JavaScript operations, as the code uses them *)

Module Js.

(** [x || 0] on a number that may be missing: [undefined] and [0] are
    falsy. *)
Definition or_zero (x : option Q) : Q :=
  match x with
  | Some q => if Qeq_bool q 0 then 0 else q
  | None => 0
  end.

(** Truthiness of a string that may be missing: [undefined] and the
    empty string are falsy. *)
Definition truthy (x : option string) : bool :=
  match x with
  | Some s => negb (s =? "")
  | None => false
  end.

(** [x === lit] for a string that may be missing. *)
Definition is_string (x : option string) (lit : string) : bool :=
  match x with
  | Some s => s =? lit
  | None => false
  end.

(** [x > n] and [x >= n] on numbers. *)
Definition gt (x n : Q) : bool := negb (Qle_bool x n).
Definition ge (x n : Q) : bool := Qle_bool n x.

(** [Array.isArray(a)] and [a.length] for an array that may be
    missing. *)
Definition isArray {A} (a : option (list A)) : bool :=
  match a with Some _ => true | None => false end.
Definition len {A} (a : option (list A)) : nat :=
  match a with Some l => List.length l | None => 0 end.

(** [a.length === 1 && a[0] === lit] *)
Definition is_just (a : option (list string)) (lit : string) : bool :=
  match a with
  | Some [s] => s =? lit
  | _ => false
  end.

(** [Math.round]: the nearest integer, a tie going up. *)
Definition Math_round (x : Q) : Z := Qfloor (x + (1 # 2)).

(** [new Set(l)] spread back into an array: a Set keeps its elements in
    insertion order, and adding an element it already has does
    nothing. *)
Definition Set_add (acc : list string) (x : string) : list string :=
  if existsb (String.eqb x) acc then acc else (acc ++ [x])%list.

Definition Set_from (l : list string) : list string :=
  fold_left Set_add l [].

(** [a.slice(0, n)] *)
Definition slice0 {A} (n : nat) (a : list A) : list A := firstn n a.

(** [a.join(sep)] on an array of strings that may be missing: a missing
    element prints as the empty string. *)
Fixpoint join (sep : string) (a : list (option string)) : string :=
  match a with
  | [] => ""
  | [x] => match x with Some s => s | None => "" end
  | x :: rest =>
      (match x with Some s => s | None => "" end) ++ sep ++ join sep rest
  end.

(** [a.filter(Boolean)] on an array of strings that may be missing. *)
Definition filter_Boolean (a : list (option string)) : list string :=
  flat_map (fun x => match x with
                     | Some s => if truthy x then [s] else []
                     | None => []
                     end) a.

(** [a || []] *)
Definition or_empty (a : option (list string)) : list string :=
  match a with Some l => l | None => [] end.

End Js.

(** ** The data the normaliser reads and writes *)

(** [category_scores]: six keys, each of which may be missing. *)
Record CategoryScores := {
  multimodal_match : option Q;
  document_forensics : option Q;
  visual_artifacts : option Q;
  logical_consistency : option Q;
  synthetic_signs : option Q;
  shadow_perspective : option Q
}.

(** [Object.values(category_scores)]: the values of the keys that are
    there. *)
Definition Object_values (c : CategoryScores) : list Q :=
  flat_map (fun v : option Q => match v with Some q => [q] | None => [] end)
    [multimodal_match c; document_forensics c; visual_artifacts c;
     logical_consistency c; synthetic_signs c; shadow_perspective c].


(** One entry of the old format's [results] array ([r: any] in the
    code: nothing is known to be there). *)
Module File.
Record t := {
  authenticity_score : option Q;
  risk_level : option string;
  verdict : option string;
  reasons : option (list string);
  signals : option (list string);
  filename : option string;
  category_scores : option CategoryScores
}.
End File.

(** The response object, and the unified result the handler stores. *)
Module Batch.
Record t := {
  results : option (list File.t);
  authenticity_score : option Q;
  risk_level : option string;
  verdict : option string;
  reasons : option (list string);
  signals : option (list string);
  category_scores : option CategoryScores;
  filenames : option (list string);
  claim : option string;
  batch_size : option nat;
  analysis_type : option string
}.
End Batch.

(** [response.data]: what axios hands over.  A JSON body is parsed; a
    body that is not JSON arrives as a string.  (A top-level JSON array
    is left out of the model.) *)
Inductive ResponseData :=
| DNull
| DBool (b : bool)
| DNum (n : Q)
| DStr (s : string)
| DObj (o : Batch.t).

Definition truthy_data (d : ResponseData) : bool :=
  match d with
  | DNull => false
  | DBool b => b
  | DNum n => negb (Qeq_bool n 0)
  | DStr s => negb (s =? "")
  | DObj _ => true
  end.

(** What the handler leaves in the component's state. *)
Inductive Outcome :=
| NotStarted
| SetBatchResults (r : Batch.t)
| SetError (msg : string).

(** The canonical default strings. *)
Definition default_verdict : string :=
  "Analysis completed. Review details for specific findings.".
Definition default_reason : string :=
  "Multimodal analysis completed across all files.".
Definition default_signal : string :=
  "Cross-file analysis performed.".

(** [score >= 70 ? 'Low' : score >= 40 ? 'Medium' : 'High'] *)
Definition riskOf (score : Q) : string :=
  if Js.ge score 70 then "Low"
  else if Js.ge score 40 then "Medium"
  else "High".

Module Normalizer.
Section WithRuntime.

(** The runtime's conversion of a number to text, as a template literal
    applies it. *)
Variable Number_toString : Q -> string.

Definition length_Q {A} (a : list A) : Q :=
  inject_Z (Z.of_nat (List.length a)).

(** [Math.round(results.reduce((sum, r) => sum + (get(r) || 0), 0) / results.length)] *)
Definition average (get : File.t -> option Q) (results : list File.t) : Z :=
  Js.Math_round
    (fold_left (fun sum r => sum + Js.or_zero (get r)) results 0
     / length_Q results).

(** [r.category_scores?.key] *)
Definition category (key : CategoryScores -> option Q) (r : File.t) : option Q :=
  match File.category_scores r with
  | Some c => key c
  | None => None
  end.

(** The old format: [results] is a non-empty array of per-file results,
    combined into one. *)
Definition mergeResults (files : list string) (claim : string)
    (results : list File.t) : Batch.t :=
  let avgScore := average File.authenticity_score results in
  let allReasons := flat_map (fun r => Js.or_empty (File.reasons r)) results in
  let allSignals := flat_map (fun r => Js.or_empty (File.signals r)) results in
  let allFilenames := Js.filter_Boolean (map File.filename results) in
  let avg key := Some (inject_Z (average (category key) results)) in
  let avgCategoryScores :=
    {| multimodal_match := avg multimodal_match;
       document_forensics := avg document_forensics;
       visual_artifacts := avg visual_artifacts;
       logical_consistency := avg logical_consistency;
       synthetic_signs := avg synthetic_signs;
       shadow_perspective := avg shadow_perspective |} in
  let riskLevel := riskOf (inject_Z avgScore) in
  {| Batch.results := None;
     Batch.authenticity_score := Some (inject_Z avgScore);
     Batch.risk_level := Some riskLevel;
     Batch.verdict :=
       Some ("Unified analysis of " ++ Number_toString (length_Q results)
             ++ " file" ++ (if (List.length results =? 1)%nat then "" else "s")
             ++ ": " ++ Js.join " | " (map File.verdict results));
     Batch.reasons := Some (Js.slice0 7 allReasons);
     Batch.signals := Some (Js.slice0 7 (Js.Set_from allSignals));
     Batch.category_scores := Some avgCategoryScores;
     Batch.filenames :=
       Some (if (0 <? List.length allFilenames)%nat then allFilenames else files);
     Batch.claim := Some claim;
     Batch.batch_size := Some (List.length results);
     Batch.analysis_type := Some "multimodal_batch_combined" |}.

(** The new format: one unified result, whose missing fields are filled
    in, one [if] statement after the other. *)
Definition fillMissing (files : list string) (batchResult : Batch.t) : Batch.t :=
  (* if (typeof score !== 'number' || score === 0)
       if (score === undefined || score === null) score = 0 *)
  let authenticity_score : Q :=
    match Batch.authenticity_score batchResult with
    | Some q => q
    | None => 0
    end in
  let risk_level :=
    if negb (Js.truthy (Batch.risk_level batchResult))
       || (Js.is_string (Batch.risk_level batchResult) "High"
           && Js.gt authenticity_score 39)
    then let score := authenticity_score in Some (riskOf score)
    else Batch.risk_level batchResult in
  let verdict :=
    if negb (Js.truthy (Batch.verdict batchResult))
       || Js.is_string (Batch.verdict batchResult) default_verdict
    then
      if Js.gt authenticity_score 0
      then Some ("Unified multimodal analysis completed with "
                 ++ Number_toString authenticity_score
                 ++ "% authenticity score.")
      else Batch.verdict batchResult
    else Batch.verdict batchResult in
  let reasons :=
    if negb (Js.isArray (Batch.reasons batchResult))
       || (Js.len (Batch.reasons batchResult) =? 0)%nat
       || Js.is_just (Batch.reasons batchResult) default_reason
    then
      if Js.isArray (Batch.reasons batchResult)
         && (0 <? Js.len (Batch.reasons batchResult))%nat
      then Batch.reasons batchResult
      else Some [default_reason]
    else Batch.reasons batchResult in
  let signals :=
    if negb (Js.isArray (Batch.signals batchResult))
       || (Js.len (Batch.signals batchResult) =? 0)%nat
       || Js.is_just (Batch.signals batchResult) default_signal
    then
      if Js.isArray (Batch.signals batchResult)
         && (0 <? Js.len (Batch.signals batchResult))%nat
      then Batch.signals batchResult
      else Some [default_signal]
    else Batch.signals batchResult in
  let category_scores :=
    if match Batch.category_scores batchResult with
       | None => true
       | Some c => forallb (fun v => Qeq_bool v 0) (Object_values c)
       end
    then
      let score := Js.or_zero (Some authenticity_score) in
      Some {| multimodal_match := Some score;
              document_forensics := Some score;
              visual_artifacts := Some score;
              logical_consistency := Some score;
              synthetic_signs := Some score;
              shadow_perspective := Some score |}
    else Batch.category_scores batchResult in
  let filenames :=
    if negb (Js.isArray (Batch.filenames batchResult))
       || (Js.len (Batch.filenames batchResult) =? 0)%nat
    then Some files
    else Batch.filenames batchResult in
  {| Batch.results := Batch.results batchResult;
     Batch.authenticity_score := Some authenticity_score;
     Batch.risk_level := risk_level;
     Batch.verdict := verdict;
     Batch.reasons := reasons;
     Batch.signals := signals;
     Batch.category_scores := category_scores;
     Batch.filenames := filenames;
     Batch.claim := Batch.claim batchResult;
     Batch.batch_size := Batch.batch_size batchResult;
     Batch.analysis_type := Batch.analysis_type batchResult |}.

(** [batchResult.results && Array.isArray(batchResult.results) &&
    batchResult.results.length > 0] *)
Definition oldFormat (batchResult : Batch.t) : option (list File.t) :=
  match Batch.results batchResult with
  | Some (r :: rest) => Some (r :: rest)
  | _ => None
  end.

(** The body of [if (response.data)] for an object. *)
Definition normalize (files : list string) (claim : string)
    (batchResult : Batch.t) : Batch.t :=
  match oldFormat batchResult with
  | Some results => mergeResults files claim results
  | None => fillMissing files batchResult
  end.

(** [handleBatchUpload], from the response on.  With no file chosen it
    returns at once.  A falsy response is reported as missing.  A
    truthy response that is not an object (a string, a number, [true])
    has no [results] and no [authenticity_score], so the handler
    reaches [batchResult.authenticity_score = 0]: the module is strict
    code, the assignment to a primitive throws a TypeError, and the
    [catch] block reports the failure. *)
Definition handleBatchUpload (files : list string) (claim : string)
    (data : ResponseData) : Outcome :=
  if (List.length files =? 0)%nat then NotStarted
  else if truthy_data data then
    match data with
    | DObj batchResult => SetBatchResults (normalize files claim batchResult)
    | _ => SetError "Failed to analyze files. Please check your connection and API key."
    end
  else SetError "No data received from server".

End WithRuntime.
End Normalizer.

(** ** The emphasis pass of the report: [highlightRiskyWords]

    The text that reaches it is a line of sanitised text: ASCII, but for
    the bullet the signals block puts in front.  On such text the
    whitespace class of the regular expressions is the six ASCII
    characters below, and [toLowerCase] changes the letters A to Z
    only. *)

Module Emphasis.

(** [\s] *)
Definition is_space (c : ascii) : bool :=
  let n := nat_of_ascii c in
  ((n =? 32) || (n =? 9) || (n =? 10) || (n =? 11) || (n =? 12) || (n =? 13))%nat.

(** [text.split(/(\s+)/)]: the runs of whitespace cut the text, and,
    the group being a capturing one, each run is kept as an element of
    its own.  [cur] is the element being read and [in_space] tells
    whether it is a run of whitespace.  Text that begins or ends with
    whitespace gives an empty first or last element. *)
Fixpoint split_from (in_space : bool) (cur : string) (text : string) : list string :=
  match text with
  | EmptyString => if in_space then [cur; ""] else [cur]
  | String c rest =>
      if is_space c then
        if in_space then split_from true (cur ++ String c "") rest
        else cur :: split_from true (String c "") rest
      else
        if in_space then cur :: split_from false (String c "") rest
        else split_from false (cur ++ String c "") rest
  end.

Definition split_spaces (text : string) : list string :=
  split_from false "" text.

(** [/^\s+$/.test(s)] *)
Fixpoint all_space (s : string) : bool :=
  match s with
  | EmptyString => true
  | String c rest => is_space c && all_space rest
  end.

Definition isSpace (s : string) : bool :=
  negb (s =? "") && all_space s.

(** [toLowerCase], one character. *)
Definition lower_char (c : ascii) : ascii :=
  let n := nat_of_ascii c in
  if ((65 <=? n) && (n <=? 90))%nat then ascii_of_nat (n + 32) else c.

Fixpoint toLowerCase (s : string) : string :=
  match s with
  | EmptyString => EmptyString
  | String c rest => String (lower_char c) (toLowerCase rest)
  end.

(** [[.,!?;:]] *)
Definition is_punctuation (c : ascii) : bool :=
  existsb (Ascii.eqb c) ["."; ","; "!"; "?"; ";"; ":"]%char.

(** [s.replace(/[.,!?;:]/g, '')] *)
Fixpoint strip_punctuation (s : string) : string :=
  match s with
  | EmptyString => EmptyString
  | String c rest =>
      if is_punctuation c then strip_punctuation rest
      else String c (strip_punctuation rest)
  end.

(** [s.includes(sub)] *)
Fixpoint includes (s sub : string) : bool :=
  if String.prefix sub s then true
  else match s with
       | EmptyString => false
       | String _ rest => includes rest sub
       end.

Definition riskyWords : list string :=
  ["fraud"; "tampered"; "tampering"; "inconsistent"; "inconsistency"; "mismatch"; "mismatched";
   "suspicious"; "suspicion"; "fake"; "falsified"; "manipulated"; "manipulation"; "altered";
   "forged"; "forgery"; "discrepancy"; "discrepancies"; "contradiction"; "contradictory";
   "invalid"; "illegitimate"; "unauthorized"; "high risk"; "low score"; "failed"; "failure";
   "error"; "warning"; "alert"; "critical"; "danger"; "dangerous"; "unverified"; "unauthentic"].

Record Part := { text : string; bold : bool }.

Definition isRisky (word : string) : bool :=
  let lowerWord := strip_punctuation (toLowerCase word) in
  existsb (fun risky => includes lowerWord (toLowerCase risky)) riskyWords.

Definition highlightRiskyWords (text : string) : list Part :=
  map (fun word => {| text := word; bold := isRisky word |}) (split_spaces text).



End Emphasis.

(** ** The document under construction

    The part of a jsPDF document that the report writer touches: the
    pages, each the list of the texts drawn on it, the page being
    written, and the current font.  Colours are left out.  A new
    document has one page; [addPage] appends a page and moves to it. *)

Module Pdf.

(** One call of [pdf.text]: a line or an array of lines, the position of
    its first baseline, the font in force, and whether the call asked
    for [align: 'center']. *)
Record Draw := {
  lines : list string;
  x : Q;
  y : Q;
  size : Q;
  isBold : bool;
  centered : bool
}.

Record t := {
  pages : list (list Draw);
  currentPage : nat;             (* counted from 1 *)
  fontSize : Q;
  fontBold : bool
}.

Definition new : t :=
  {| pages := [[]]; currentPage := 1; fontSize := 16; fontBold := false |}.

Definition addPage (pdf : t) : t :=
  {| pages := (pages pdf ++ [[]])%list;
     currentPage := S (List.length (pages pdf));
     fontSize := fontSize pdf;
     fontBold := fontBold pdf |}.

Definition setPage (i : nat) (pdf : t) : t :=
  {| pages := pages pdf; currentPage := i;
     fontSize := fontSize pdf; fontBold := fontBold pdf |}.

Definition setFontSize (n : Q) (pdf : t) : t :=
  {| pages := pages pdf; currentPage := currentPage pdf;
     fontSize := n; fontBold := fontBold pdf |}.

Definition setFont (b : bool) (pdf : t) : t :=
  {| pages := pages pdf; currentPage := currentPage pdf;
     fontSize := fontSize pdf; fontBold := b |}.

(** Add [d] at the end of the page that [k] pages precede, and of the
    page numbered [i]. *)
Fixpoint draw_after (k : nat) (d : Draw) (ps : list (list Draw)) : list (list Draw) :=
  match ps, k with
  | [], _ => []
  | p :: rest, O => (p ++ [d])%list :: rest
  | p :: rest, S k' => p :: draw_after k' d rest
  end.

Definition draw_on (i : nat) (d : Draw) (ps : list (list Draw)) : list (list Draw) :=
  match i with
  | O => ps
  | S k => draw_after k d ps
  end.

Definition text (ls : list string) (x0 y0 : Q) (center : bool) (pdf : t) : t :=
  {| pages :=
       draw_on (currentPage pdf)
         {| lines := ls; x := x0; y := y0; size := fontSize pdf;
            isBold := fontBold pdf; centered := center |}
         (pages pdf);
     currentPage := currentPage pdf;
     fontSize := fontSize pdf;
     fontBold := fontBold pdf |}.

End Pdf.

(** The [AnalysisResult] interface, as declared: the report is written
    from a value of this type. *)
Module AnalysisResult.
Record t := {
  authenticity_score : Q;
  risk_level : string;
  reasons : list string;
  signals : list string;
  verdict : string;
  timestamp : option string;
  filename : option string;
  filenames : option (list string);
  claim : option string;
  category_scores : option CategoryScores
}.
End AnalysisResult.

(** ** The report writer: [exportToPDF] *)

Module Renderer.

(** The writer keeps the document and the cursor [yPos] and changes both
    as it goes: a state monad. *)
Record State := { pdf : Pdf.t; yPos : Q }.

Definition M (A : Type) : Type := State -> A * State.

Definition ret {A} (a : A) : M A := fun s => (a, s).

Definition bind {A B} (m : M A) (k : A -> M B) : M B :=
  fun s => let (a, s') := m s in k a s'.

Notation "x <- m ;; k" := (bind m (fun x => k))
  (at level 61, m at next level, right associativity).
Notation "m ;;; k" := (bind m (fun _ => k))
  (at level 61, right associativity).

Fixpoint forEach {A} (a : list A) (f : A -> M unit) : M unit :=
  match a with
  | [] => ret tt
  | v :: rest => f v ;;; forEach rest f
  end.

(** [a.forEach((v, index) => ...)], the index counted from [from]. *)
Fixpoint forEachIndexed {A} (from : nat) (a : list A) (f : A -> nat -> M unit) : M unit :=
  match a with
  | [] => ret tt
  | v :: rest => f v from ;;; forEachIndexed (S from) rest f
  end.

(** A loop whose body updates local variables [acc]. *)
Fixpoint foldM {A B} (f : A -> B -> M B) (a : list A) (acc : B) : M B :=
  match a with
  | [] => ret acc
  | v :: rest => acc' <- f v acc ;; foldM f rest acc'
  end.

Definition on_pdf (f : Pdf.t -> Pdf.t) : M unit :=
  fun s => (tt, {| pdf := f (pdf s); yPos := yPos s |}).

Definition getY : M Q := fun s => (yPos s, s).

Definition setY (v : Q) : M unit := fun s => (tt, {| pdf := pdf s; yPos := v |}).

(** [yPos += d] *)
Definition advance (d : Q) : M unit := fun s => (tt, {| pdf := pdf s; yPos := yPos s + d |}).

Definition setFontSize (n : Q) : M unit := on_pdf (Pdf.setFontSize n).
Definition setFont (isBold : bool) : M unit := on_pdf (Pdf.setFont isBold).
Definition getFontSize : M Q := fun s => (Pdf.fontSize (pdf s), s).

(** [pdf.text(ls, x, yPos)]; [textAt] takes the height as an argument. *)
Definition textAt (ls : list string) (x y : Q) : M unit := on_pdf (Pdf.text ls x y false).
Definition text (ls : list string) (x : Q) : M unit :=
  fun s => textAt ls x (yPos s) s.

Definition margin : Q := 20.
Definition footerHeight : Q := 15.
Definition footerText : string :=
  "VeriWeave - AI-Powered Forensic Analysis | Powered by Gemini 3".

Definition categories : list ((CategoryScores -> option Q) * string) :=
  [(multimodal_match, "Multimodal Match");
   (document_forensics, "Document Forensics");
   (visual_artifacts, "Visual Artifacts");
   (logical_consistency, "Logical Consistency");
   (synthetic_signs, "Synthetic Signs");
   (shadow_perspective, "Shadow & Perspective")].

Section WithJsPDF.

(** The page size of the document ([pdf.internal.pageSize]). *)
Variables pageWidth pageHeight : Q.

(** jsPDF's [splitTextToSize] and [getTextWidth]: both read the current
    font (its size, and whether it is bold). *)
Variable splitTextToSize : Q -> bool -> string -> Q -> list string.
Variable getTextWidth : Q -> bool -> string -> Q.

(** The runtime's conversion of a number to text, and the text of
    [new Date().toLocaleString()]. *)
Variable Number_toString : Q -> string.
Variable now : string.

(** [sanitizeTextForPDF] replaces characters by ASCII ones.  The layout
    reads its result only through [splitTextToSize], so what is proved
    below holds whatever it returns, and it is kept as a parameter. *)
Variable sanitizeTextForPDF : string -> string.

Definition maxContentWidth : Q := pageWidth - 2 * margin.

Definition split (txt : string) (maxWidth : Q) : M (list string) :=
  fun s => (splitTextToSize (Pdf.fontSize (pdf s)) (Pdf.fontBold (pdf s)) txt maxWidth, s).

Definition textWidth (txt : string) : M Q :=
  fun s => (getTextWidth (Pdf.fontSize (pdf s)) (Pdf.fontBold (pdf s)) txt, s).

Definition lines_Q {A} (a : list A) : Q := inject_Z (Z.of_nat (List.length a)).

Definition checkPageBreak (requiredSpace : Q) : M bool :=
  fun s =>
    if Js.gt (yPos s + requiredSpace) (pageHeight - footerHeight)
    then (true, {| pdf := Pdf.addPage (pdf s); yPos := margin |})
    else (false, s).

(** One element of [parts.forEach] in [renderTextWithBold]; the local
    variables [currentX] and [currentY] are the pair [cur]. *)
Definition renderPart (x maxWidth currentFontSize : Q) (part : Emphasis.Part)
    (cur : Q * Q) : M (Q * Q) :=
  let lineHeight := 7 in
  let isSpace := Emphasis.isSpace (Emphasis.text part) in
  setFont (Emphasis.bold part && negb isSpace) ;;;
  setFontSize currentFontSize ;;;
  wordWidth <- textWidth (Emphasis.text part) ;;
  let cur :=
    if Js.gt (fst cur + wordWidth) (x + maxWidth - 2) && negb isSpace
       && Js.gt (fst cur) x
    then (x, snd cur + lineHeight)
    else cur in
  textAt [Emphasis.text part] (fst cur) (snd cur) ;;;
  ret (fst cur + wordWidth, snd cur).

Definition renderTextWithBold (txt : string) (x y maxWidth : Q) : M Q :=
  let parts := Emphasis.highlightRiskyWords txt in
  let lineHeight := 7 in
  currentFontSize <- getFontSize ;;
  cur <- foldM (renderPart x maxWidth currentFontSize) parts (x, y) ;;
  setFont false ;;;
  setFontSize currentFontSize ;;;
  ret (snd cur + lineHeight).

(** The "(continued)" note at the top of a page started inside a list. *)
Definition continued : M unit :=
  setFontSize 9 ;;;
  text ["(continued)"] margin ;;;
  advance 5 ;;;
  setFontSize 11.

(** The lines of one reason or signal, one under the other. *)
Definition renderLines (ls : list string) : M unit :=
  startY <- getY ;;
  startY <- foldM (fun line startY =>
                     renderTextWithBold line (margin + 5) startY (maxContentWidth - 5))
                  ls startY ;;
  setY (startY + 2).

Definition filenameDisplay (result : AnalysisResult.t) : string :=
  match AnalysisResult.filenames result with
  | Some (f :: fs) =>
      match fs with
      | [] => f
      | _ => Number_toString (lines_Q (f :: fs)) ++ " files: "
             ++ String.concat ", " (f :: fs)
      end
  | _ =>
      if Js.truthy (AnalysisResult.filename result)
      then match AnalysisResult.filename result with Some f => f | None => "" end
      else "Unknown"
  end.

(** The body of the report, from the title to the last signal. *)
Definition layout (result : AnalysisResult.t) : M unit :=
  (* Title *)
  setFontSize 20 ;;;
  titleLines <- split "VeriWeave Forensic Analysis Report" maxContentWidth ;;
  text titleLines margin ;;;
  advance (lines_Q titleLines * 8 + 5) ;;;
  (* Timestamp *)
  setFontSize 10 ;;;
  text ["Generated: " ++ now] margin ;;;
  advance 10 ;;;
  (* File info *)
  setFontSize 12 ;;;
  let filenameText :=
    "File" ++ (if (1 <? Js.len (AnalysisResult.filenames result))%nat then "s" else "")
    ++ ": " ++ sanitizeTextForPDF (filenameDisplay result) in
  filenameLines <- split filenameText maxContentWidth ;;
  text filenameLines margin ;;;
  advance (lines_Q filenameLines * 6 + 5) ;;;
  let claimText :=
    "Claim: " ++ sanitizeTextForPDF
      (if Js.truthy (AnalysisResult.claim result)
       then match AnalysisResult.claim result with Some c => c | None => "" end
       else "No claim provided") in
  claimLines <- split claimText maxContentWidth ;;
  text claimLines margin ;;;
  advance (lines_Q claimLines * 6 + 5) ;;;
  (* Score *)
  checkPageBreak 15 ;;;
  setFontSize 16 ;;;
  text ["Authenticity Score: "
        ++ Number_toString (AnalysisResult.authenticity_score result) ++ "%"] margin ;;;
  advance 10 ;;;
  setFontSize 12 ;;;
  text ["Risk Level: " ++ AnalysisResult.risk_level result] margin ;;;
  advance 10 ;;;
  (* Verdict *)
  checkPageBreak 20 ;;;
  setFontSize 12 ;;;
  let verdictText := "Verdict: " ++ sanitizeTextForPDF (AnalysisResult.verdict result) in
  verdictLines <- split verdictText maxContentWidth ;;
  text verdictLines margin ;;;
  advance (lines_Q verdictLines * 7 + 8) ;;;
  (* Category scores *)
  match AnalysisResult.category_scores result with
  | Some c =>
      checkPageBreak 50 ;;;
      setFontSize 14 ;;;
      text ["Confidence Breakdown:"] margin ;;;
      advance 8 ;;;
      setFontSize 10 ;;;
      forEach categories (fun cat =>
        let score := Js.or_zero (fst cat c) in
        text [snd cat ++ ": " ++ Number_toString score ++ "%"] (margin + 5) ;;;
        advance 6) ;;;
      advance 5
  | None => ret tt
  end ;;;
  (* Reasons *)
  checkPageBreak 20 ;;;
  setFontSize 16 ;;;
  text ["Analysis Reasons:"] margin ;;;
  advance 10 ;;;
  setFontSize 11 ;;;
  forEachIndexed 0 (AnalysisResult.reasons result) (fun reason index =>
    let reasonText :=
      Number_toString (inject_Z (Z.of_nat (index + 1))) ++ ". "
      ++ sanitizeTextForPDF reason in
    reasonLines <- split reasonText (maxContentWidth - 5) ;;
    let requiredSpace := lines_Q reasonLines * 7 + 4 in
    broke <- checkPageBreak requiredSpace ;;
    (if broke : bool then continued else ret tt) ;;;
    renderLines reasonLines) ;;;
  advance 5 ;;;
  (* Signals *)
  checkPageBreak 20 ;;;
  setFontSize 16 ;;;
  text ["Technical Signals:"] margin ;;;
  advance 10 ;;;
  setFontSize 11 ;;;
  forEach (AnalysisResult.signals result) (fun signal =>
    let signalText := "• " ++ sanitizeTextForPDF signal in
    signalLines <- split signalText (maxContentWidth - 5) ;;
    let requiredSpace := lines_Q signalLines * 7 in
    broke <- checkPageBreak requiredSpace ;;
    (if broke : bool then continued else ret tt) ;;;
    renderLines signalLines).

(** The footer of one page. *)
Definition stampFooter (i : nat) : M unit :=
  on_pdf (Pdf.setPage i) ;;;
  setFontSize 8 ;;;
  let footerX := pageWidth / 2 in
  let footerY := pageHeight - 8 in
  on_pdf (Pdf.text [footerText] footerX footerY true).

(** [for (let i = 1; i <= totalPages; i++)] *)
Definition stampFooters : M unit :=
  fun s =>
    let totalPages := List.length (Pdf.pages (pdf s)) in
    forEach (seq 1 totalPages) stampFooter s.

(** The document [exportToPDF] saves; without a result it returns at
    once.  (The name of the saved file is left out.) *)
Definition exportToPDF (result : option AnalysisResult.t) : option Pdf.t :=
  match result with
  | None => None
  | Some result =>
      let start := {| pdf := Pdf.new; yPos := margin |} in
      Some (pdf (snd ((layout result ;;; stampFooters) start)))
  end.

(** The document as it is when the body has been laid out, before any
    footer is stamped. *)
Definition body (result : AnalysisResult.t) : Pdf.t :=
  pdf (snd (layout result {| pdf := Pdf.new; yPos := margin |})).

(** The footer stamp: the one text drawn centred. *)
Definition stamp : Pdf.Draw :=
  {| Pdf.lines := [footerText]; Pdf.x := pageWidth / 2; Pdf.y := pageHeight - 8;
     Pdf.size := 8; Pdf.isBold := false; Pdf.centered := true |}.

(** A text of the body that starts below the space kept for the body. *)
Definition beyond_body (d : Pdf.Draw) : bool :=
  negb (Pdf.centered d) && Js.gt (Pdf.y d) (pageHeight - footerHeight).

End WithJsPDF.
End Renderer.

(** ** The properties, as the description of the normaliser states them *)

Module Canonical.

(** A per-file value; one that is missing counts for 0. *)
Definition value (x : option Q) : Q :=
  match x with Some q => q | None => 0 end.

(** The fixed mapping between a score and a risk level. *)
Definition level_fits (level : string) (score : Q) : Prop :=
  (level = "Low" <-> 70 <= score)
  /\ (level = "Medium" <-> 40 <= score /\ score < 70)
  /\ (level = "High" <-> score < 40).

(** The risk level of a result is the one its score maps to. *)
Definition risk_matches_score (r : Batch.t) : Prop :=
  exists score level,
    Batch.authenticity_score r = Some score
    /\ Batch.risk_level r = Some level
    /\ level_fits level score.

(** The score the new-format path works with: the one supplied, or 0. *)
Definition supplied_score (b : Batch.t) : Q := value (Batch.authenticity_score b).

(** The two cases in which the new-format path computes the risk level:
    none came with the payload, or "High" came with a score above 39. *)
Definition level_missing (b : Batch.t) : Prop :=
  Batch.risk_level b = None \/ Batch.risk_level b = Some "".

Definition high_above_39 (b : Batch.t) : Prop :=
  Batch.risk_level b = Some "High" /\ 39 < supplied_score b.

(** The other case: a level came with the payload, and it is not "High"
    with a score above 39. *)
Definition level_supplied (b : Batch.t) : Prop :=
  exists level, Batch.risk_level b = Some level /\ level <> ""
                /\ (level <> "High" \/ supplied_score b <= 39).



Definition sum (l : list Q) : Q := fold_right Qplus 0 l.

(** The arithmetic mean. *)
Definition mean (l : list Q) : Q := sum l / inject_Z (Z.of_nat (List.length l)).

(** [z] is [x] rounded to the nearest integer, a tie going up. *)
Definition rounds_half_up (x : Q) (z : Z) : Prop :=
  x - (1 # 2) < inject_Z z /\ inject_Z z <= x + (1 # 2).



(** The verdict is a non-empty string. *)
Definition has_verdict (r : Batch.t) : Prop :=
  exists v, Batch.verdict r = Some v /\ v <> "".

(** The sentence generated for a missing verdict. *)
Definition generated_verdict (Number_toString : Q -> string) (score : Q) : string :=
  "Unified multimodal analysis completed with " ++ Number_toString score
  ++ "% authenticity score.".

(** The elements of [l] in the order of their first occurrence, each
    once. *)
Fixpoint first_occurrences (l : list string) : list string :=
  match l with
  | [] => []
  | s :: rest => s :: filter (fun t => negb (t =? s)) (first_occurrences rest)
  end.

(** The fields that the backfill pass always leaves present. *)
Definition repaired (r : Batch.t) : Prop :=
  (exists score, Batch.authenticity_score r = Some score)
  /\ (exists level, Batch.risk_level r = Some level /\ level <> "")
  /\ (exists l, Batch.reasons r = Some l /\ l <> [])
  /\ (exists l, Batch.signals r = Some l /\ l <> [])
  /\ (exists c, Batch.category_scores r = Some c)
  /\ (exists l, Batch.filenames r = Some l /\ l <> []).

(** A complete finding: every required field is present. *)
Definition complete (r : Batch.t) : Prop :=
  repaired r /\ has_verdict r.

(** No verdict came with the payload, or the default one did. *)
Definition verdict_missing (b : Batch.t) : Prop :=
  Batch.verdict b = None \/ Batch.verdict b = Some ""
  \/ Batch.verdict b = Some default_verdict.

(** A verdict of its own came with the payload. *)
Definition verdict_supplied (b : Batch.t) : Prop :=
  exists v, Batch.verdict b = Some v /\ v <> "" /\ v <> default_verdict.

(** The fields that the old-format merge always writes: the two lists
    may be empty. *)
Definition merged (r : Batch.t) : Prop :=
  (exists score, Batch.authenticity_score r = Some score)
  /\ (exists level, Batch.risk_level r = Some level /\ level <> "")
  /\ has_verdict r
  /\ (exists l, Batch.reasons r = Some l)
  /\ (exists l, Batch.signals r = Some l)
  /\ (exists c, Batch.category_scores r = Some c)
  /\ (exists l, Batch.filenames r = Some l).



End Canonical.

(** ** Concrete runtime values, for the examples

    Printing of integers in decimal, which is what a template literal
    does with an integer; A4 paper in millimetres, jsPDF's default; a
    text splitter that breaks at line feeds, as [splitTextToSize] does
    before it wraps, and glyphs of no width, so that nothing wraps. *)

Module Example.

Definition decimal (q : Q) : string :=
  NilEmpty.string_of_int (Z.to_int (Qfloor q)).

Definition pageWidth : Q := 595.28 * 25.4 / 72.
Definition pageHeight : Q := 841.89 * 25.4 / 72.

Fixpoint lines_from (cur : string) (s : string) : list string :=
  match s with
  | EmptyString => [cur]
  | String c rest =>
      if (nat_of_ascii c =? 10)%nat then cur :: lines_from "" rest
      else lines_from (cur ++ String c "") rest
  end.

Definition splitAtLineFeeds (fontSize : Q) (isBold : bool) (s : string) (maxWidth : Q) : list string :=
  lines_from "" s.

Definition noWidth (fontSize : Q) (isBold : bool) (s : string) : Q := 0.

Definition ascii_only (s : string) : string := s.

Definition newline : string := String (ascii_of_nat 10) "".

Definition file (score : Q) : File.t :=
  {| File.authenticity_score := Some score; File.risk_level := None;
     File.verdict := None; File.reasons := None; File.signals := None;
     File.filename := None; File.category_scores := None |}.

(** The object [{}]. *)
Definition empty : Batch.t :=
  {| Batch.results := None; Batch.authenticity_score := None;
     Batch.risk_level := None; Batch.verdict := None; Batch.reasons := None;
     Batch.signals := None; Batch.category_scores := None;
     Batch.filenames := None; Batch.claim := None; Batch.batch_size := None;
     Batch.analysis_type := None |}.

(** [{authenticity_score: score}] and
    [{authenticity_score: score, risk_level: level}]. *)
Definition scored (score : Q) : Batch.t :=
  {| Batch.results := None; Batch.authenticity_score := Some score;
     Batch.risk_level := None; Batch.verdict := None; Batch.reasons := None;
     Batch.signals := None; Batch.category_scores := None;
     Batch.filenames := None; Batch.claim := None; Batch.batch_size := None;
     Batch.analysis_type := None |}.

Definition scored_with_level (score : Q) (level : string) : Batch.t :=
  {| Batch.results := None; Batch.authenticity_score := Some score;
     Batch.risk_level := Some level; Batch.verdict := None; Batch.reasons := None;
     Batch.signals := None; Batch.category_scores := None;
     Batch.filenames := None; Batch.claim := None; Batch.batch_size := None;
     Batch.analysis_type := None |}.

(** [{results: rs}] *)
Definition old (rs : list File.t) : Batch.t :=
  {| Batch.results := Some rs; Batch.authenticity_score := None;
     Batch.risk_level := None; Batch.verdict := None; Batch.reasons := None;
     Batch.signals := None; Batch.category_scores := None;
     Batch.filenames := None; Batch.claim := None; Batch.batch_size := None;
     Batch.analysis_type := None |}.

(** A reason of forty short lines, and a result that carries it. *)
Definition longReason : string := String.concat newline (repeat "a" 40).

Definition report : AnalysisResult.t :=
  {| AnalysisResult.authenticity_score := 35;
     AnalysisResult.risk_level := "High";
     AnalysisResult.reasons := [longReason];
     AnalysisResult.signals := [];
     AnalysisResult.verdict := "Likely tampered.";
     AnalysisResult.timestamp := None;
     AnalysisResult.filename := Some "invoice.pdf";
     AnalysisResult.filenames := None;
     AnalysisResult.claim := Some "Invoice from the supplier";
     AnalysisResult.category_scores := None |}.

Definition exportToPDF (result : AnalysisResult.t) : option Pdf.t :=
  Renderer.exportToPDF pageWidth pageHeight splitAtLineFeeds noWidth decimal
    "1/1/2026, 12:00:00 PM" ascii_only (Some result).

End Example.

(** ** The properties of the layout *)

Module Layout.

(** Pre- and postconditions of a step of the writer. *)
Definition triple {A} (P : Renderer.State -> Prop) (m : Renderer.M A)
    (Q : Renderer.State -> Prop) : Prop :=
  forall s, P s -> Q (snd (m s)).

(** No text of the document is a centred one: the footer has not been
    stamped yet. *)
Definition plain (pdf : Pdf.t) : Prop :=
  Forall (Forall (fun d => Pdf.centered d = false)) (Pdf.pages pdf).

Definition plainS (s : Renderer.State) : Prop := plain (Renderer.pdf s).

(** The state between two statements of the body: nothing centred, and
    the font back to normal. *)
Definition tidy (s : Renderer.State) : Prop :=
  plain (Renderer.pdf s) /\ Pdf.fontBold (Renderer.pdf s) = false.

(** The footer stamps of a page: its centred texts. *)
Definition stamps (page : list Pdf.Draw) : list Pdf.Draw :=
  filter Pdf.centered page.

(** No text of the body starts below the space kept for the body. *)
Definition within_body (pageHeight : Q) (doc : Pdf.t) : Prop :=
  Forall (Forall (fun d => Renderer.beyond_body pageHeight d = false)) (Pdf.pages doc).

End Layout.

(** ** Text as UTF-16 code units

    The sanitiser and the naming of the saved file rewrite a string one
    code unit at a time, and what they do with a character outside ASCII
    depends on how many code units it takes.  For these two a string is
    the list of its code units. *)

Module Text.

Definition t : Type := list N.

(** An ASCII literal. *)
Definition of_ascii (s : string) : t := map N_of_ascii (list_ascii_of_string s).

Definition is_ascii (s : t) : Prop := Forall (fun u => (u <= 127)%N) s.

End Text.

(** ** [sanitizeTextForPDF] *)

Module Sanitizer.

(** [s.replace(/c/g, by)] for one character [c]. *)
Definition replaceAll (c : N) (by_ : Text.t) (s : Text.t) : Text.t :=
  flat_map (fun u => if (u =? c)%N then by_ else [u]) s.

(** [s.replace(/c1|c2/g, by)] *)
Definition replaceEither (c1 c2 : N) (by_ : Text.t) (s : Text.t) : Text.t :=
  flat_map (fun u => if ((u =? c1) || (u =? c2))%N then by_ else [u]) s.

(** [s.replace(/[^\x00-\x7F]/g, '?')] *)
Definition replaceNonAscii (s : Text.t) : Text.t :=
  map (fun u => if (127 <? u)%N then 63%N else u) s.

Definition sanitizeTextForPDF (text : Text.t) : Text.t :=
  match text with
  | [] => []                                                   (* if (!text) return '' *)
  | _ =>
      let sanitized := replaceAll 8377 (Text.of_ascii "Rs.") text in       (* U+20B9 *)
      let sanitized := replaceAll 8364 (Text.of_ascii "EUR") sanitized in  (* U+20AC *)
      let sanitized := replaceAll 163 (Text.of_ascii "GBP") sanitized in   (* U+00A3 *)
      let sanitized := replaceAll 165 (Text.of_ascii "JPY") sanitized in   (* U+00A5 *)
      let sanitized := replaceAll 185 (Text.of_ascii "Rs.") sanitized in   (* U+00B9 *)
      let sanitized := replaceAll 178 [] sanitized in                      (* U+00B2 *)
      let sanitized := replaceAll 179 [] sanitized in                      (* U+00B3 *)
      let sanitized := replaceAll 8211 (Text.of_ascii "-") sanitized in    (* U+2013 *)
      let sanitized := replaceAll 8212 (Text.of_ascii "-") sanitized in    (* U+2014 *)
      let sanitized := replaceEither 34 34 [34%N] sanitized in             (* /"|"/ *)
      let sanitized := replaceEither 39 39 [39%N] sanitized in             (* /'|'/ *)
      let sanitized := replaceAll 8230 (Text.of_ascii "...") sanitized in  (* U+2026 *)
      replaceNonAscii sanitized
  end.

End Sanitizer.

(** ** The name of the saved report *)

Module Naming.

(** A character that [/[^a-z0-9]/gi] leaves alone.  Without the unicode
    flag the case-insensitive match never lets a character outside
    ASCII stand for a letter. *)
Definition is_alnum (u : N) : bool :=
  ((97 <=? u) && (u <=? 122) || (65 <=? u) && (u <=? 90) || (48 <=? u) && (u <=? 57))%N.

(** [name.replace(/[^a-z0-9]/gi, '-')] *)
Definition replaceUnsafe (name : Text.t) : Text.t :=
  map (fun u => if is_alnum u then u else 45%N) name.

(** [toLowerCase] on the result of [replaceUnsafe], which is ASCII: only
    the letters A to Z change. *)
Definition toLowerCase (s : Text.t) : Text.t :=
  map (fun u => if ((65 <=? u) && (u <=? 90))%N then (u + 32)%N else u) s.

Definition slug (name : Text.t) : Text.t := toLowerCase (replaceUnsafe name).

(** A lowercase letter, a digit or a hyphen. *)
Definition plain_unit (u : N) : bool :=
  ((97 <=? u) && (u <=? 122) || (48 <=? u) && (u <=? 57) || (u =? 45))%N.

Section WithRuntime.

Variable Number_toString : Q -> Text.t.

(** [pdfFilename] at the end of [exportToPDF], before the time stamp and
    the extension are added. *)
Definition pdfFilename (filenames : option (list Text.t)) (filename : option Text.t) : Text.t :=
  match filenames with
  | Some (f :: rest) =>
      match rest with
      | [] => Text.of_ascii "veriweave-report-" ++ slug f
      | _ => Text.of_ascii "veriweave-report-batch-"
             ++ Number_toString (inject_Z (Z.of_nat (List.length (f :: rest))))
             ++ Text.of_ascii "-files"
      end
  | _ =>
      match filename with
      | Some (u :: name) => Text.of_ascii "veriweave-report-" ++ slug (u :: name)
      | _ => Text.of_ascii "veriweave-report-analysis"
      end
  end%list.

End WithRuntime.

End Naming.

(** ** The status shown beside a score: [getRiskStatus] *)

Module Status.

Record t := { label : string; icon : string; desc : string }.

Definition getRiskStatus (score : Q) : t :=
  if Js.ge score 80 then
    {| label := "AUTHENTIC"; icon := "ShieldCheck";
       desc := "No significant anomalies detected. Visual and textual evidence align with known authentic patterns." |}
  else if Js.ge score 50 then
    {| label := "SUSPICIOUS"; icon := "Info";
       desc := "Minor structural or metadata inconsistencies detected. Exercise caution before proceeding." |}
  else
    {| label := "TAMPERED"; icon := "AlertTriangle";
       desc := "High-probability of synthetic manipulation or manual tampering detected in artifacts." |}.

End Status.

(** ** The server: the batch route and what it does with the model's
    answer *)

Module Server.

(** [text.match(/\{[\s\S]*\}/)]: the match starts at the first opening
    brace that a closing brace follows, and, the star being greedy, ends
    at the last closing brace.  [from_open] gives the text from its
    first opening brace on, [to_last_close] the text up to its last
    closing brace. *)
Fixpoint from_open (s : string) : option string :=
  match s with
  | EmptyString => None
  | String c rest => if Ascii.eqb c "{" then Some s else from_open rest
  end.

Fixpoint to_last_close (s : string) : option string :=
  match s with
  | EmptyString => None
  | String c rest =>
      match to_last_close rest with
      | Some kept => Some (String c kept)
      | None => if Ascii.eqb c "}" then Some (String c "") else None
      end
  end.

Definition jsonMatch (text : string) : option string :=
  match from_open text with
  | Some (String open rest) => option_map (String open) (to_last_close rest)
  | _ => None
  end.

(** One whitespace character or line terminator of JavaScript at the
    head of [s], in UTF-8, taken off. *)
Definition drop_space (s : string) : option string :=
  match s with
  | EmptyString => None
  | String c1 r1 =>
      let n1 := nat_of_ascii c1 in
      if ((9 <=? n1) && (n1 <=? 13) || (n1 =? 32))%nat then Some r1
      else match r1 with
           | EmptyString => None
           | String c2 r2 =>
               let n2 := nat_of_ascii c2 in
               if ((n1 =? 194) && (n2 =? 160))%nat then Some r2          (* U+00A0 *)
               else match r2 with
                    | EmptyString => None
                    | String c3 r3 =>
                        let n3 := nat_of_ascii c3 in
                        if ((n1 =? 225) && (n2 =? 154) && (n3 =? 128)        (* U+1680 *)
                            || (n1 =? 226) && (n2 =? 128)
                               && ((128 <=? n3) && (n3 <=? 138)              (* U+2000..200A *)
                                   || (n3 =? 168) || (n3 =? 169)             (* U+2028, U+2029 *)
                                   || (n3 =? 175))                           (* U+202F *)
                            || (n1 =? 226) && (n2 =? 129) && (n3 =? 159)     (* U+205F *)
                            || (n1 =? 227) && (n2 =? 128) && (n3 =? 128)     (* U+3000 *)
                            || (n1 =? 239) && (n2 =? 187) && (n3 =? 191))%nat (* U+FEFF *)
                        then Some r3 else None
                    end
           end
  end.

Fixpoint blank_within (fuel : nat) (s : string) : bool :=
  match s with
  | EmptyString => true
  | _ =>
      match fuel with
      | O => false
      | S fuel' =>
          match drop_space s with
          | Some rest => blank_within fuel' rest
          | None => false
          end
      end
  end.

(** [s.trim() === ''] *)
Definition blank (s : string) : bool := blank_within (String.length s) s.

(** The checks that [analyzeBatchFiles] makes on the parsed answer. *)
Definition validate (parsedResponse : Batch.t) : Batch.t :=
  let authenticity_score : Q :=
    match Batch.authenticity_score parsedResponse with
    | Some q => q
    | None => 0                      (* typeof ... !== 'number': 0 *)
    end in
  let risk_level :=
    if negb (Js.truthy (Batch.risk_level parsedResponse))
    then let score := authenticity_score in Some (riskOf score)
    else Batch.risk_level parsedResponse in
  let verdict :=
    if negb (Js.truthy (Batch.verdict parsedResponse))
    then Some default_verdict
    else Batch.verdict parsedResponse in
  let reasons :=
    if negb (Js.isArray (Batch.reasons parsedResponse))
    then Some [default_reason]
    else Batch.reasons parsedResponse in
  let signals :=
    if negb (Js.isArray (Batch.signals parsedResponse))
    then Some [default_signal]
    else Batch.signals parsedResponse in
  let category_scores :=
    match Batch.category_scores parsedResponse with
    | Some c => Some c
    | None =>
        let score := Js.or_zero (Some authenticity_score) in
        Some {| multimodal_match := Some score;
                document_forensics := Some score;
                visual_artifacts := Some score;
                logical_consistency := Some score;
                synthetic_signs := Some score;
                shadow_perspective := Some score |}
    end in
  {| Batch.results := Batch.results parsedResponse;
     Batch.authenticity_score := Some authenticity_score;
     Batch.risk_level := risk_level;
     Batch.verdict := verdict;
     Batch.reasons := reasons;
     Batch.signals := signals;
     Batch.category_scores := category_scores;
     Batch.filenames := Batch.filenames parsedResponse;
     Batch.claim := Batch.claim parsedResponse;
     Batch.batch_size := Batch.batch_size parsedResponse;
     Batch.analysis_type := Batch.analysis_type parsedResponse |}.

(** What the route answers. *)
Inductive Response :=
| Json200 (result : Batch.t)
| Json400 (error : string)
| Json500 (error : string).

Section WithRuntime.

(** [JSON.parse] on a text that starts with an opening brace: an object,
    or [None] when it throws. *)
Variable JSON_parse : string -> option Batch.t.

(** [analyzeBatchFiles], from the text of the model's answer on; [None]
    when it throws.  (The files are taken to be readable.) *)
Definition analyzeBatchFiles (text : string) : option Batch.t :=
  match jsonMatch text with
  | Some matched =>
      match JSON_parse matched with
      | Some parsedResponse => Some (validate parsedResponse)
      | None => None
      end
  | None => None
  end.

(** [app.post('/api/analyze-batch', ...)].  [files] are the names of the
    uploaded files, [claim] is [req.body.claim], [text] is what the model
    answers when it is asked, and [saved] tells whether the record could
    be stored. *)
Definition analyzeBatch (files : list string) (claim : option string)
    (text : string) (saved : bool) : Response :=
  if (List.length files =? 0)%nat then Json400 "No files uploaded"
  else
    match claim with
    | None => Json400 "Claim is required for batch analysis"
    | Some claimText =>
        if negb (Js.truthy claim) || blank claimText
        then Json400 "Claim is required for batch analysis"
        else
          match analyzeBatchFiles text with
          | None => Json500 "Batch analysis failed"
          | Some result =>
              let result :=
                {| Batch.results := Batch.results result;
                   Batch.authenticity_score := Batch.authenticity_score result;
                   Batch.risk_level := Batch.risk_level result;
                   Batch.verdict := Batch.verdict result;
                   Batch.reasons := Batch.reasons result;
                   Batch.signals := Batch.signals result;
                   Batch.category_scores := Batch.category_scores result;
                   Batch.filenames := Some files;
                   Batch.claim := Some claimText;
                   Batch.batch_size := Some (List.length files);
                   Batch.analysis_type := Some "multimodal_batch" |} in
              if saved then Json200 result else Json500 "Batch analysis failed"
          end
    end.

End WithRuntime.

(** The character [c] does not occur in [s]. *)
Definition free_of (c : ascii) (s : string) : Prop :=
  forall before after, s <> before ++ String c after.

(** A response of the route as the client stores it. *)
Definition fields_present (r : Batch.t) : Prop :=
  (exists score, Batch.authenticity_score r = Some score)
  /\ (exists level, Batch.risk_level r = Some level /\ level <> "")
  /\ Canonical.has_verdict r
  /\ (exists l, Batch.reasons r = Some l)
  /\ (exists l, Batch.signals r = Some l)
  /\ (exists c, Batch.category_scores r = Some c).

End Server.

(** ** Words and runs of whitespace *)

Module Words.

(** No whitespace in [s]. *)
Fixpoint has_no_space (s : string) : bool :=
  match s with
  | EmptyString => true
  | String c rest => negb (Emphasis.is_space c) && has_no_space rest
  end.

(** The elements of [l] are, in turn, text without whitespace and a
    non-empty run of whitespace; [in_space] tells which one comes
    first. *)
Fixpoint alternating (in_space : bool) (l : list string) : Prop :=
  match l with
  | [] => True
  | w :: rest =>
      (if in_space then Emphasis.isSpace w = true else has_no_space w = true)
      /\ alternating (negb in_space) rest
  end.

(** Only the characters . , ! ? ; : in [s]. *)
Fixpoint all_punctuation (s : string) : bool :=
  match s with
  | EmptyString => true
  | String c rest => Emphasis.is_punctuation c && all_punctuation rest
  end.

End Words.

(** * Proofs *)

(** ** The JavaScript operations *)

Lemma ge_spec (x n : Q) : Js.ge x n = true <-> n <= x.
Proof. unfold Js.ge. apply Qle_bool_iff. Qed.

Lemma gt_spec (x n : Q) : Js.gt x n = true <-> n < x.
Proof.
  unfold Js.gt. rewrite negb_true_iff.
  destruct (Qle_bool x n) eqn:E.
  - apply Qle_bool_iff in E. split; [discriminate | intro H; exfalso; lra].
  - split; [intros _ | reflexivity].
    apply Qnot_le_lt. intro H. apply Qle_bool_iff in H. congruence.
Qed.

Lemma gt_false (x n : Q) : Js.gt x n = false <-> x <= n.
Proof.
  destruct (Js.gt x n) eqn:E.
  - apply gt_spec in E. split; [discriminate | intro; exfalso; lra].
  - split; [intros _ | reflexivity].
    apply Qnot_lt_le. intro H. apply gt_spec in H. congruence.
Qed.

Lemma or_zero_value (x : option Q) : Js.or_zero x == Canonical.value x.
Proof.
  destruct x as [q|]; simpl; [| reflexivity].
  destruct (Qeq_bool q 0) eqn:E; [| reflexivity].
  apply Qeq_bool_iff in E. symmetry. exact E.
Qed.

Lemma riskOf_cases (score : Q) :
  (70 <= score /\ riskOf score = "Low")
  \/ (40 <= score /\ score < 70 /\ riskOf score = "Medium")
  \/ (score < 40 /\ riskOf score = "High").
Proof.
  unfold riskOf.
  destruct (Js.ge score 70) eqn:E70.
  - left. apply ge_spec in E70. auto.
  - assert (H70 : score < 70).
    { apply Qnot_le_lt. intro H. apply ge_spec in H. congruence. }
    destruct (Js.ge score 40) eqn:E40.
    + right; left. apply ge_spec in E40. auto.
    + right; right. split; [| reflexivity].
      apply Qnot_le_lt. intro H. apply ge_spec in H. congruence.
Qed.

Lemma riskOf_fits (score : Q) : Canonical.level_fits (riskOf score) score.
Proof.
  unfold Canonical.level_fits.
  destruct (riskOf_cases score) as [[H E] | [[H1 [H2 E]] | [H E]]]; rewrite E;
    repeat split; intros; try discriminate; try lra; try reflexivity;
    try (exfalso; lra).
Qed.

Lemma Math_round_half_up (x : Q) : Canonical.rounds_half_up x (Js.Math_round x).
Proof.
  unfold Canonical.rounds_half_up, Js.Math_round.
  pose proof (Qfloor_le (x + (1 # 2))) as Hle.
  pose proof (Qlt_floor (x + (1 # 2))) as Hlt.
  rewrite inject_Z_plus in Hlt. change (inject_Z 1) with 1 in Hlt.
  set (f := inject_Z (Qfloor (x + (1 # 2)))) in *. clearbody f.
  split; lra.
Qed.

Lemma rounds_half_up_compat (x y : Q) (z : Z) :
  x == y -> Canonical.rounds_half_up x z -> Canonical.rounds_half_up y z.
Proof. unfold Canonical.rounds_half_up. intros E [H1 H2]. split; lra. Qed.

(** [reduce] adds up the per-file values. *)
Lemma reduce_sum (get : File.t -> option Q) (results : list File.t) (start : Q) :
  fold_left (fun sum r => sum + Js.or_zero (get r)) results start
  == start + Canonical.sum (map (fun r => Canonical.value (get r)) results).
Proof.
  revert start. induction results as [| r rest IH]; intro start; simpl.
  - lra.
  - rewrite IH. rewrite (or_zero_value (get r)). lra.
Qed.

Lemma average_rounds_mean (get : File.t -> option Q) (results : list File.t) :
  Canonical.rounds_half_up
    (Canonical.mean (map (fun r => Canonical.value (get r)) results))
    (Normalizer.average get results).
Proof.
  unfold Normalizer.average.
  eapply rounds_half_up_compat; [| apply Math_round_half_up].
  unfold Canonical.mean, Normalizer.length_Q.
  rewrite reduce_sum, length_map.
  apply Qdiv_comp; [lra | reflexivity].
Qed.

(** ** A Set keeps first occurrences *)

Lemma filter_filter_comm {A} (p q : A -> bool) (l : list A) :
  filter p (filter q l) = filter q (filter p l).
Proof.
  induction l as [| a l IH]; simpl; [reflexivity |].
  destruct (p a) eqn:Ep, (q a) eqn:Eq; simpl; rewrite ?Ep, ?Eq, IH; reflexivity.
Qed.

Lemma filter_absorb (p : string -> bool) (s : string) (l : list string) :
  p s = false ->
  filter p (filter (fun t => negb (t =? s)) l) = filter p l.
Proof.
  intro Hp. induction l as [| a l IH]; simpl; [reflexivity |].
  destruct (String.eqb_spec a s) as [-> | Hne]; simpl.
  - rewrite Hp. exact IH.
  - destruct (p a); rewrite IH; reflexivity.
Qed.

Lemma first_occurrences_filter (p : string -> bool) (l : list string) :
  Canonical.first_occurrences (filter p l) = filter p (Canonical.first_occurrences l).
Proof.
  induction l as [| s l IH]; simpl; [reflexivity |].
  destruct (p s) eqn:Ep; simpl.
  - rewrite IH. f_equal. apply filter_filter_comm.
  - rewrite IH. symmetry. apply filter_absorb. exact Ep.
Qed.

Lemma existsb_app_last (x s : string) (acc : list string) :
  negb (existsb (String.eqb x) (acc ++ [s]))
  = negb (x =? s) && negb (existsb (String.eqb x) acc).
Proof.
  rewrite existsb_app. simpl. rewrite orb_false_r, negb_orb. apply andb_comm.
Qed.

Lemma Set_fold_first_occurrences (l acc : list string) :
  fold_left Js.Set_add l acc
  = (acc ++ Canonical.first_occurrences
              (filter (fun x => negb (existsb (String.eqb x) acc)) l))%list.
Proof.
  revert acc. induction l as [| s l IH]; intro acc; simpl.
  - symmetry. apply app_nil_r.
  - unfold Js.Set_add at 2. destruct (existsb (String.eqb s) acc) eqn:E; simpl.
    + apply IH.
    + rewrite IH, <- app_assoc. simpl. do 2 f_equal.
      rewrite <- (first_occurrences_filter (fun t => negb (t =? s))). f_equal.
      rewrite (filter_ext _ _ (fun x => existsb_app_last x s acc)).
      clear. induction l as [| a l IH]; simpl; [reflexivity |].
      destruct (negb (existsb (String.eqb a) acc)); simpl;
        destruct (negb (a =? s)); simpl; rewrite IH; reflexivity.
Qed.

Lemma Set_from_first_occurrences (l : list string) :
  Js.Set_from l = Canonical.first_occurrences l.
Proof.
  unfold Js.Set_from. rewrite Set_fold_first_occurrences. simpl.
  f_equal. induction l as [| a l IH]; simpl; congruence.
Qed.

Lemma first_occurrences_In (l : list string) (s : string) :
  In s (Canonical.first_occurrences l) <-> In s l.
Proof.
  induction l as [| a l IH]; simpl; [reflexivity |].
  rewrite filter_In, IH, negb_true_iff, String.eqb_neq.
  destruct (string_dec a s) as [-> | Hne]; [tauto |].
  split; [tauto |]. intros [H | H]; [congruence |]. right. split; [exact H | congruence].
Qed.

Lemma first_occurrences_NoDup (l : list string) :
  NoDup (Canonical.first_occurrences l).
Proof.
  induction l as [| a l IH]; simpl; constructor.
  - rewrite filter_In, negb_true_iff, String.eqb_neq. tauto.
  - apply NoDup_filter. exact IH.
Qed.

Lemma NoDup_firstn {A} (n : nat) (l : list A) : NoDup l -> NoDup (firstn n l).
Proof.
  intro H. rewrite <- (firstn_skipn n l) in H. apply NoDup_app_remove_r in H. exact H.
Qed.

(** ** The normaliser *)

Section NormalizerFacts.

Variable Number_toString : Q -> string.

Lemma truthy_cases (x : option string) :
  (Js.truthy x = false /\ (x = None \/ x = Some ""))
  \/ (exists s, Js.truthy x = true /\ x = Some s /\ s <> "").
Proof.
  destruct x as [s|]; simpl.
  - destruct (String.eqb_spec s "") as [E | E]; simpl.
    + left. subst. auto.
    + right. exists s. auto.
  - left. auto.
Qed.

Lemma is_string_spec (x : option string) (lit : string) :
  Js.is_string x lit = true <-> x = Some lit.
Proof.
  destruct x as [s|]; simpl.
  - rewrite String.eqb_eq. split; congruence.
  - split; discriminate.
Qed.

Lemma merged_risk_matches (files : list string) (claim : string) (results : list File.t) :
  Canonical.risk_matches_score (Normalizer.mergeResults Number_toString files claim results).
Proof.
  unfold Canonical.risk_matches_score, Normalizer.mergeResults. simpl.
  eexists _, _. split; [reflexivity |]. split; [reflexivity |]. apply riskOf_fits.
Qed.

(** C1, as amended.  In the old-format merge the risk level is the one the
    merged score maps to.  In the new-format path it is the one the score
    maps to when no level came with the payload or when "High" came with
    a score above 39; any other level that came with the payload is
    kept as it is. *)
Theorem risk_level_derived_or_kept (files : list string) (claim : string) (b : Batch.t) :
  let r := Normalizer.normalize Number_toString files claim b in
  match Normalizer.oldFormat b with
  | Some _ => Canonical.risk_matches_score r
  | None =>
      ((Canonical.level_missing b \/ Canonical.high_above_39 b)
       /\ Canonical.risk_matches_score r)
      \/ (Canonical.level_supplied b
          /\ Batch.risk_level r = Batch.risk_level b)
  end.
Proof.
  unfold Normalizer.normalize.
  destruct (Normalizer.oldFormat b) as [results|] eqn:Eold; cbv zeta.
  - apply merged_risk_matches.
  - unfold Normalizer.fillMissing; cbn [Batch.risk_level Batch.authenticity_score].
    assert (Hfit : forall s, Canonical.risk_matches_score
              {| Batch.results := Batch.results b;
                 Batch.authenticity_score := Some s;
                 Batch.risk_level := Some (riskOf s);
                 Batch.verdict := None; Batch.reasons := None; Batch.signals := None;
                 Batch.category_scores := None; Batch.filenames := None;
                 Batch.claim := None; Batch.batch_size := None;
                 Batch.analysis_type := None |}).
    { intro s. eexists _, _. split; [reflexivity |]. split; [reflexivity |].
      apply riskOf_fits. }
    unfold Canonical.risk_matches_score in *. cbn [Batch.risk_level Batch.authenticity_score] in *.
    fold (Canonical.value (Batch.authenticity_score b)).
    fold (Canonical.supplied_score b).
    destruct (truthy_cases (Batch.risk_level b)) as [[Et Hm] | [level [Et [El Hne]]]];
      rewrite Et; cbn [negb orb].
    + left. split; [left; exact Hm | apply Hfit].
    + destruct (Js.is_string (Batch.risk_level b) "High") eqn:Eh; cbn [andb].
      * apply is_string_spec in Eh.
        destruct (Js.gt (Canonical.supplied_score b) 39) eqn:Eg.
        -- left. split; [| apply Hfit]. right. split; [exact Eh |].
           apply gt_spec. exact Eg.
        -- right. split; [| reflexivity]. exists level. repeat split; auto.
           right. apply gt_false. exact Eg.
      * right. split; [| reflexivity]. exists level. repeat split; auto.
        left. intro E. subst level.
        rewrite El in Eh. simpl in Eh. discriminate.
Qed.

Lemma oldFormat_Some (b : Batch.t) (results : list File.t) :
  Normalizer.oldFormat b = Some results ->
  Batch.results b = Some results /\ results <> [].
Proof.
  unfold Normalizer.oldFormat.
  destruct (Batch.results b) as [[| r rest] |]; try discriminate.
  intros [= <-]. split; [reflexivity | discriminate].
Qed.

Lemma oldFormat_cons (b : Batch.t) (r : File.t) (rest : list File.t) :
  Batch.results b = Some (r :: rest) -> Normalizer.oldFormat b = Some (r :: rest).
Proof. unfold Normalizer.oldFormat. intros ->. reflexivity. Qed.








Lemma generated_not_empty (score : Q) :
  Canonical.generated_verdict Number_toString score <> "".
Proof. discriminate. Qed.

(** C5, as amended.  The old-format merge always writes a non-empty
    verdict.  In the new-format path a verdict of its own that came with
    the payload is kept; a missing or default verdict is replaced by the
    generated sentence, which names the score, when the score is above
    0, and is left as it came (missing, empty or default) when the score
    is not above 0. *)
Theorem verdict_generated_for_positive_score (files : list string) (claim : string) (b : Batch.t) :
  let r := Normalizer.normalize Number_toString files claim b in
  match Normalizer.oldFormat b with
  | Some _ => Canonical.has_verdict r
  | None =>
      (Canonical.verdict_supplied b
       /\ Batch.verdict r = Batch.verdict b /\ Canonical.has_verdict r)
      \/ (Canonical.verdict_missing b /\ 0 < Canonical.supplied_score b
          /\ Batch.verdict r
             = Some (Canonical.generated_verdict Number_toString (Canonical.supplied_score b))
          /\ Canonical.has_verdict r)
      \/ (Canonical.verdict_missing b /\ Canonical.supplied_score b <= 0
          /\ Batch.verdict r = Batch.verdict b)
  end.
Proof.
  unfold Normalizer.normalize.
  destruct (Normalizer.oldFormat b) as [results|] eqn:Eold; cbv zeta.
  - eexists. split; [reflexivity | discriminate].
  - unfold Normalizer.fillMissing, Canonical.has_verdict. cbn [Batch.verdict].
    fold (Canonical.value (Batch.authenticity_score b)).
    fold (Canonical.supplied_score b).
    fold (Canonical.generated_verdict Number_toString (Canonical.supplied_score b)).
    assert (Hmissing :
              Canonical.verdict_missing b ->
              (0 < Canonical.supplied_score b
               /\ (if Js.gt (Canonical.supplied_score b) 0
                   then Some (Canonical.generated_verdict Number_toString
                                (Canonical.supplied_score b))
                   else Batch.verdict b)
                  = Some (Canonical.generated_verdict Number_toString
                            (Canonical.supplied_score b)))
              \/ (Canonical.supplied_score b <= 0
                  /\ (if Js.gt (Canonical.supplied_score b) 0
                      then Some (Canonical.generated_verdict Number_toString
                                   (Canonical.supplied_score b))
                      else Batch.verdict b)
                     = Batch.verdict b)).
    { intros _. destruct (Js.gt (Canonical.supplied_score b) 0) eqn:Eg.
      - left. split; [apply gt_spec; exact Eg | reflexivity].
      - right. split; [apply gt_false; exact Eg | reflexivity]. }
    destruct (truthy_cases (Batch.verdict b)) as [[Et Hm] | [v [Et [Ev Hne]]]];
      rewrite Et; cbn [negb orb].
    + assert (Hmiss : Canonical.verdict_missing b).
      { destruct Hm; [left | right; left]; assumption. }
      destruct (Hmissing Hmiss) as [[Hpos ->] | [Hnon ->]].
      * right; left. repeat split; auto.
        eexists. split; [reflexivity | apply generated_not_empty].
      * right; right. auto.
    + destruct (Js.is_string (Batch.verdict b) default_verdict) eqn:Ed.
      * apply is_string_spec in Ed.
        assert (Hmiss : Canonical.verdict_missing b) by (right; right; exact Ed).
        destruct (Hmissing Hmiss) as [[Hpos ->] | [Hnon ->]].
        -- right; left. repeat split; auto.
           eexists. split; [reflexivity | apply generated_not_empty].
        -- right; right. auto.
      * left. split; [| split; [reflexivity | exists v; auto]].
        exists v. repeat split; auto.
        intros ->. rewrite Ev in Ed. simpl in Ed. discriminate.
Qed.

(** C6.  In the old-format merge the reasons are the per-file reasons one
    after the other, in file order, cut to the first seven; the signals
    are the per-file signals one after the other, each kept at its
    first occurrence only, cut to the first seven. *)
Theorem merged_reasons_and_signals (files : list string) (claim : string) (b : Batch.t)
    (r : File.t) (rest : list File.t) :
  Batch.results b = Some (r :: rest) ->
  let results := r :: rest in
  let out := Normalizer.normalize Number_toString files claim b in
  let allReasons := List.concat (map (fun r => Js.or_empty (File.reasons r)) results) in
  let allSignals := List.concat (map (fun r => Js.or_empty (File.signals r)) results) in
  Batch.reasons out = Some (firstn 7 allReasons)
  /\ Batch.signals out = Some (firstn 7 (Canonical.first_occurrences allSignals))
  /\ (forall l, Batch.reasons out = Some l -> (List.length l <= 7)%nat)
  /\ (forall l, Batch.signals out = Some l ->
        (List.length l <= 7)%nat /\ NoDup l /\ forall s, In s l -> In s allSignals).
Proof.
  intros Hres results out allReasons allSignals.
  subst out. unfold Normalizer.normalize. rewrite (oldFormat_cons _ _ _ Hres).
  fold results. unfold Normalizer.mergeResults. cbn [Batch.reasons Batch.signals].
  unfold Js.slice0. rewrite Set_from_first_occurrences, !flat_map_concat_map.
  fold allReasons allSignals.
  split; [reflexivity |]. split; [reflexivity |]. split.
  - intros l H. assert (E : l = firstn 7 allReasons) by congruence.
    rewrite E. apply firstn_le_length.
  - intros l H.
    assert (E : l = firstn 7 (Canonical.first_occurrences allSignals)) by congruence.
    rewrite E. clear H E. split; [apply firstn_le_length |]. split.
    + apply NoDup_firstn, first_occurrences_NoDup.
    + intros s Hs. apply first_occurrences_In.
      rewrite <- (firstn_skipn 7 (Canonical.first_occurrences allSignals)).
      apply in_or_app. left. exact Hs.
Qed.

Lemma riskOf_not_empty (score : Q) : riskOf score <> "".
Proof.
  destruct (riskOf_cases score) as [[_ E] | [[_ [_ E]] | [_ E]]]; rewrite E; discriminate.
Qed.

Lemma merge_writes_every_field (files : list string) (claim : string)
    (r : File.t) (rest : list File.t) :
  Canonical.merged (Normalizer.mergeResults Number_toString files claim (r :: rest)).
Proof.
  unfold Canonical.merged, Canonical.has_verdict, Normalizer.mergeResults.
  cbn [Batch.authenticity_score Batch.risk_level Batch.verdict Batch.reasons
       Batch.signals Batch.category_scores Batch.filenames].
  repeat split; try (eexists; reflexivity).
  - eexists. split; [reflexivity | apply riskOf_not_empty].
  - eexists. split; [reflexivity | discriminate].
Qed.

Lemma keeps_or_defaults (a : option (list string)) (lit : string) :
  exists l,
    (if negb (Js.isArray a) || (Js.len a =? 0)%nat || Js.is_just a lit
     then if Js.isArray a && (0 <? Js.len a)%nat then a else Some [lit]
     else a) = Some l
    /\ l <> [].
Proof.
  destruct a as [[| s [| t rest]] |]; simpl.
  - eexists. split; [reflexivity | discriminate].
  - destruct (s =? lit); eexists; (split; [reflexivity | discriminate]).
  - eexists. split; [reflexivity | discriminate].
  - eexists. split; [reflexivity | discriminate].
Qed.

Lemma fill_repairs (files : list string) (b : Batch.t) :
  files <> [] -> Canonical.repaired (Normalizer.fillMissing Number_toString files b).
Proof.
  intro Hfiles. unfold Canonical.repaired, Normalizer.fillMissing.
  cbn [Batch.authenticity_score Batch.risk_level Batch.reasons
       Batch.signals Batch.category_scores Batch.filenames].
  split; [eexists; reflexivity |]. split; [| split; [| split; [| split]]].
  - destruct (truthy_cases (Batch.risk_level b)) as [[Et _] | [level [Et [El Hne]]]];
      rewrite Et; cbn [negb orb].
    + eexists. split; [reflexivity | apply riskOf_not_empty].
    + destruct (Js.is_string (Batch.risk_level b) "High" && _).
      * eexists. split; [reflexivity | apply riskOf_not_empty].
      * exists level. auto.
  - apply keeps_or_defaults.
  - apply keeps_or_defaults.
  - destruct (Batch.category_scores b) as [c|]; [| eexists; reflexivity].
    destruct (forallb _ _); eexists; reflexivity.
  - destruct (Batch.filenames b) as [[| f fs] |]; simpl;
      eexists; (split; [reflexivity |]); try exact Hfiles; discriminate.
Qed.



End NormalizerFacts.

(** C1, as stated, fails: the payload
    [{authenticity_score: 10, risk_level: "Low"}] keeps the level "Low",
    which a score of 10 does not map to. *)
Lemma supplied_low_is_trusted :
  exists r,
    Normalizer.handleBatchUpload Example.decimal ["a.pdf"] "claim"
      (DObj (Example.scored_with_level 10 "Low")) = SetBatchResults r
    /\ Batch.authenticity_score r = Some 10
    /\ Batch.risk_level r = Some "Low"
    /\ ~ Canonical.risk_matches_score r.
Proof.
  eexists. split; [reflexivity |]. split; [reflexivity |]. split; [reflexivity |].
  intros [score [level [Hs [Hl [Hlow _]]]]].
  cbv in Hs, Hl. injection Hs as <-. injection Hl as <-.
  assert (H : 70 <= 10) by (apply Hlow; reflexivity).
  revert H. apply Qlt_not_le. reflexivity.
Qed.






(** C5, as stated, fails: a payload with a score of 0 and no verdict
    keeps no verdict. *)
Lemma zero_score_leaves_verdict_missing :
  let r := Normalizer.normalize Example.decimal ["a.pdf"] "claim" (Example.scored 0) in
  Batch.verdict r = None /\ ~ Canonical.has_verdict r.
Proof.
  cbv zeta. split; [reflexivity |].
  intros [v [Hv _]]. cbv in Hv. discriminate Hv.
Qed.

(** The general statement of C6 at two files that share a signal. *)
Lemma merged_reasons_and_signals_witness :
  let f1 := {| File.authenticity_score := Some 80; File.risk_level := None;
               File.verdict := None; File.reasons := Some ["r1"; "r2"];
               File.signals := Some ["s1"; "s2"]; File.filename := Some "a.pdf";
               File.category_scores := None |} in
  let f2 := {| File.authenticity_score := Some 60; File.risk_level := None;
               File.verdict := None; File.reasons := Some ["r2"];
               File.signals := Some ["s2"; "s1"; "s3"]; File.filename := None;
               File.category_scores := None |} in
  let out := Normalizer.normalize Example.decimal ["a.pdf"; "b.pdf"] "claim"
               (Example.old [f1; f2]) in
  Batch.results (Example.old [f1; f2]) = Some [f1; f2]
  /\ Batch.reasons out = Some ["r1"; "r2"; "r2"]
  /\ Batch.signals out = Some ["s1"; "s2"; "s3"].
Proof.
  cbv zeta. split; [reflexivity |].
  match goal with
  | |- Batch.reasons (Normalizer.normalize ?N ?fs ?c (Example.old [?f1; ?f2])) = _ /\ _ =>
      destruct (merged_reasons_and_signals N fs c (Example.old [f1; f2]) f1 [f2] eq_refl)
        as [Hr [Hs _]]
  end.
  split; [exact Hr | exact Hs].
Defined.



(** ** The report writer *)

Section StepRules.

Import Renderer.

Lemma triple_ret {A} (P : State -> Prop) (a : A) : Layout.triple P (ret a) P.
Proof. intros s H. exact H. Qed.

Lemma triple_bind {A B} (P R Q : State -> Prop) (m : M A) (k : A -> M B) :
  Layout.triple P m R -> (forall a, Layout.triple R (k a) Q) ->
  Layout.triple P (bind m k) Q.
Proof.
  intros Hm Hk s Hs. unfold bind. specialize (Hm s Hs).
  destruct (m s) as [a s']. apply Hk. exact Hm.
Qed.

Lemma triple_weaken {A} (P P' Q : State -> Prop) (m : M A) :
  (forall s, P' s -> P s) -> Layout.triple P m Q -> Layout.triple P' m Q.
Proof. intros Himp Hm s Hs. apply Hm, Himp, Hs. Qed.

Lemma triple_forEach {A} (I : State -> Prop) (a : list A) (f : A -> M unit) :
  (forall v, Layout.triple I (f v) I) -> Layout.triple I (forEach a f) I.
Proof.
  intro Hf. induction a as [| v rest IH]; simpl.
  - apply triple_ret.
  - eapply triple_bind; [apply Hf | intros _; exact IH].
Qed.

Lemma triple_forEachIndexed {A} (I : State -> Prop) (a : list A)
    (f : A -> nat -> M unit) (from : nat) :
  (forall v i, Layout.triple I (f v i) I) ->
  Layout.triple I (forEachIndexed from a f) I.
Proof.
  intro Hf. revert from. induction a as [| v rest IH]; intro from; simpl.
  - apply triple_ret.
  - eapply triple_bind; [apply Hf | intros _; apply IH].
Qed.

Lemma triple_foldM {A B} (I : State -> Prop) (f : A -> B -> M B) (a : list A) (acc : B) :
  (forall v b, Layout.triple I (f v b) I) -> Layout.triple I (foldM f a acc) I.
Proof.
  intro Hf. revert acc. induction a as [| v rest IH]; intro acc; simpl.
  - apply triple_ret.
  - eapply triple_bind; [apply Hf | intro acc'; apply IH].
Qed.

(** A step that leaves the document alone keeps whatever holds of it. *)
Lemma triple_same_pdf {A} (P : Pdf.t -> Prop) (m : M A) :
  (forall s, pdf (snd (m s)) = pdf s) ->
  Layout.triple (fun s => P (pdf s)) m (fun s => P (pdf s)).
Proof. intros Hsame s Hs. rewrite Hsame. exact Hs. Qed.

Lemma triple_on_pdf (P Q : Pdf.t -> Prop) (f : Pdf.t -> Pdf.t) :
  (forall d, P d -> Q (f d)) ->
  Layout.triple (fun s => P (pdf s)) (on_pdf f) (fun s => Q (pdf s)).
Proof. intros Hf s Hs. simpl. apply Hf, Hs. Qed.

End StepRules.

(** The operations of the document, one by one. *)

Lemma draw_on_plain (i : nat) (d : Pdf.Draw) (ps : list (list Pdf.Draw)) :
  Pdf.centered d = false ->
  Forall (Forall (fun d => Pdf.centered d = false)) ps ->
  Forall (Forall (fun d => Pdf.centered d = false)) (Pdf.draw_on i d ps).
Proof.
  intros Hd Hps. destruct i as [| k]; [exact Hps |]. simpl.
  revert k. induction Hps as [| p rest Hp Hrest IH]; intro k.
  - destruct k; constructor.
  - destruct k as [| k]; simpl.
    + constructor; [| assumption].
      apply Forall_app. split; [assumption | constructor; [assumption | constructor]].
    + constructor; [assumption | apply IH].
Qed.

Lemma text_plain (ls : list string) (x y : Q) (d : Pdf.t) :
  Layout.plain d -> Layout.plain (Pdf.text ls x y false d).
Proof. intro H. unfold Layout.plain, Pdf.text. simpl. apply draw_on_plain; auto. Qed.

Lemma addPage_plain (d : Pdf.t) : Layout.plain d -> Layout.plain (Pdf.addPage d).
Proof.
  intro H. unfold Layout.plain, Pdf.addPage. simpl.
  apply Forall_app. split; [exact H | repeat constructor].
Qed.

Lemma draw_on_page (pre : list (list Pdf.Draw)) (p : list Pdf.Draw)
    (post : list (list Pdf.Draw)) (d : Pdf.Draw) :
  Pdf.draw_on (S (List.length pre)) d (pre ++ p :: post)
  = (pre ++ (p ++ [d]) :: post)%list.
Proof.
  unfold Pdf.draw_on.
  induction pre as [| q pre IH]; [reflexivity |].
  simpl. rewrite IH. reflexivity.
Qed.

Section LayoutFacts.

Import Renderer.

Variables pageWidth pageHeight : Q.
Variable splitTextToSize : Q -> bool -> string -> Q -> list string.
Variable getTextWidth : Q -> bool -> string -> Q.
Variable Number_toString : Q -> string.
Variable now : string.
Variable sanitizeTextForPDF : string -> string.

Local Abbreviation checkPageBreak := (Renderer.checkPageBreak pageHeight).
Local Abbreviation split := (Renderer.split splitTextToSize).
Local Abbreviation textWidth := (Renderer.textWidth getTextWidth).
Local Abbreviation renderPart := (Renderer.renderPart getTextWidth).
Local Abbreviation renderTextWithBold := (Renderer.renderTextWithBold getTextWidth).
Local Abbreviation renderLines := (Renderer.renderLines pageWidth getTextWidth).
Local Abbreviation layout :=
  (Renderer.layout pageWidth pageHeight splitTextToSize getTextWidth
     Number_toString now sanitizeTextForPDF).
Local Abbreviation stampFooter := (Renderer.stampFooter pageWidth pageHeight).
Local Abbreviation stampFooters := (Renderer.stampFooters pageWidth pageHeight).
Local Abbreviation stamp := (Renderer.stamp pageWidth pageHeight).
Local Abbreviation body :=
  (Renderer.body pageWidth pageHeight splitTextToSize getTextWidth
     Number_toString now sanitizeTextForPDF).
Local Abbreviation exportToPDF :=
  (Renderer.exportToPDF pageWidth pageHeight splitTextToSize getTextWidth
     Number_toString now sanitizeTextForPDF).

(** The page-break test: a new page, and the cursor back at the margin,
    exactly when the space asked for does not fit above the footer. *)
Lemma checkPageBreak_spec (requiredSpace : Q) (s : State) :
  (pageHeight - footerHeight < yPos s + requiredSpace ->
   checkPageBreak requiredSpace s
   = (true, {| pdf := Pdf.addPage (pdf s); yPos := margin |}))
  /\ (yPos s + requiredSpace <= pageHeight - footerHeight ->
      checkPageBreak requiredSpace s = (false, s)).
Proof.
  unfold Renderer.checkPageBreak. split; intro H.
  - apply gt_spec in H. rewrite H. reflexivity.
  - apply gt_false in H. rewrite H. reflexivity.
Qed.

Lemma tidy_same {A} (m : M A) :
  (forall s, pdf (snd (m s)) = pdf s) -> Layout.triple Layout.tidy m Layout.tidy.
Proof.
  intro H. apply (triple_same_pdf (fun d => Layout.plain d /\ Pdf.fontBold d = false)), H.
Qed.

Lemma tidy_on_pdf (f : Pdf.t -> Pdf.t) :
  (forall d, Layout.plain d -> Layout.plain (f d)) ->
  (forall d, Pdf.fontBold (f d) = Pdf.fontBold d) ->
  Layout.triple Layout.tidy (on_pdf f) Layout.tidy.
Proof.
  intros Hp Hb.
  apply (triple_on_pdf (fun d => Layout.plain d /\ Pdf.fontBold d = false)
                       (fun d => Layout.plain d /\ Pdf.fontBold d = false)).
  intros d [H1 H2]. split; [apply Hp, H1 | rewrite Hb; exact H2].
Qed.

Lemma plain_on_pdf (f : Pdf.t -> Pdf.t) :
  (forall d, Layout.plain d -> Layout.plain (f d)) ->
  Layout.triple Layout.plainS (on_pdf f) Layout.plainS.
Proof. intro Hp. apply (triple_on_pdf Layout.plain Layout.plain), Hp. Qed.

Lemma plain_same {A} (m : M A) :
  (forall s, pdf (snd (m s)) = pdf s) -> Layout.triple Layout.plainS m Layout.plainS.
Proof. intro H. apply (triple_same_pdf Layout.plain), H. Qed.

Lemma tidy_setFontSize (n : Q) : Layout.triple Layout.tidy (setFontSize n) Layout.tidy.
Proof. apply tidy_on_pdf; intros d; [intro H; exact H | reflexivity]. Qed.

Lemma tidy_textAt (ls : list string) (x y : Q) :
  Layout.triple Layout.tidy (textAt ls x y) Layout.tidy.
Proof. apply tidy_on_pdf; intros d; [apply text_plain | reflexivity]. Qed.

Lemma tidy_text (ls : list string) (x : Q) :
  Layout.triple Layout.tidy (text ls x) Layout.tidy.
Proof. intros s H. unfold text. apply tidy_textAt. exact H. Qed.

Lemma tidy_advance (d : Q) : Layout.triple Layout.tidy (advance d) Layout.tidy.
Proof. apply tidy_same. reflexivity. Qed.

Lemma tidy_getY : Layout.triple Layout.tidy getY Layout.tidy.
Proof. apply tidy_same. reflexivity. Qed.

Lemma tidy_setY (v : Q) : Layout.triple Layout.tidy (setY v) Layout.tidy.
Proof. apply tidy_same. reflexivity. Qed.

Lemma tidy_split (txt : string) (w : Q) : Layout.triple Layout.tidy (split txt w) Layout.tidy.
Proof. apply tidy_same. reflexivity. Qed.

Lemma tidy_getFontSize : Layout.triple Layout.tidy getFontSize Layout.tidy.
Proof. apply tidy_same. reflexivity. Qed.

Lemma tidy_checkPageBreak (requiredSpace : Q) :
  Layout.triple Layout.tidy (checkPageBreak requiredSpace) Layout.tidy.
Proof.
  intros s [H1 H2]. unfold Renderer.checkPageBreak.
  destruct (Js.gt _ _); simpl; split; auto. apply addPage_plain, H1.
Qed.

Create HintDb tidy.
Hint Resolve triple_ret tidy_setFontSize tidy_textAt tidy_text tidy_advance tidy_getY
  tidy_setY tidy_split tidy_getFontSize tidy_checkPageBreak : tidy.

(** One statement after the other, each keeping the state tidy. *)
Ltac tidy_steps :=
  repeat (eapply triple_bind; [solve [eauto with tidy] | intro]);
  try solve [eauto with tidy].

Lemma plain_renderPart (x maxWidth size : Q) (part : Emphasis.Part) (cur : Q * Q) :
  Layout.triple Layout.plainS (renderPart x maxWidth size part cur) Layout.plainS.
Proof.
  unfold Renderer.renderPart.
  eapply triple_bind; [apply plain_on_pdf; intros d H; exact H | intros _].
  eapply triple_bind; [apply plain_on_pdf; intros d H; exact H | intros _].
  eapply triple_bind; [apply plain_same; reflexivity | intro w].
  eapply triple_bind; [apply plain_on_pdf; intros d H; apply text_plain, H | intros _].
  apply triple_ret.
Qed.

Lemma tidy_renderTextWithBold (txt : string) (x y maxWidth : Q) :
  Layout.triple Layout.tidy (renderTextWithBold txt x y maxWidth) Layout.tidy.
Proof.
  unfold Renderer.renderTextWithBold.
  eapply triple_bind; [apply tidy_getFontSize | intro size].
  eapply triple_bind.
  - apply (triple_weaken Layout.plainS); [intros s [H _]; exact H |].
    apply triple_foldM. intros part cur. apply plain_renderPart.
  - intro cur. eapply triple_bind.
    + apply (triple_on_pdf Layout.plain
               (fun d => Layout.plain d /\ Pdf.fontBold d = false)).
      intros d H. split; [exact H | reflexivity].
    + intros _. tidy_steps.
Qed.

Lemma tidy_renderLines (ls : list string) :
  Layout.triple Layout.tidy (renderLines ls) Layout.tidy.
Proof.
  unfold Renderer.renderLines.
  eapply triple_bind; [apply tidy_getY | intro startY].
  eapply triple_bind; [| intro; apply tidy_setY].
  apply triple_foldM. intros line y. apply tidy_renderTextWithBold.
Qed.

Lemma tidy_continued : Layout.triple Layout.tidy continued Layout.tidy.
Proof. unfold continued. tidy_steps. Qed.

Hint Resolve tidy_renderLines tidy_continued : tidy.

Lemma tidy_layout (result : AnalysisResult.t) :
  Layout.triple Layout.tidy (layout result) Layout.tidy.
Proof.
  unfold Renderer.layout.
  repeat (eapply triple_bind; [solve [eauto with tidy] | intro]).
  eapply triple_bind.
  { destruct (AnalysisResult.category_scores result) as [c|]; [| apply triple_ret].
    repeat (eapply triple_bind; [solve [eauto with tidy] | intro]).
    eapply triple_bind; [| intro; apply tidy_advance].
    apply triple_forEach. intro cat. tidy_steps. }
  intros _.
  repeat (eapply triple_bind; [solve [eauto with tidy] | intro]).
  eapply triple_bind.
  { apply triple_forEachIndexed. intros reason index.
    repeat (eapply triple_bind; [solve [eauto with tidy] | intro]).
    eapply triple_bind; [| intro; apply tidy_renderLines].
    match goal with |- context [if ?b then _ else _] => destruct b end;
      eauto with tidy. }
  intros _.
  repeat (eapply triple_bind; [solve [eauto with tidy] | intro]).
  apply triple_forEach. intro signal.
  repeat (eapply triple_bind; [solve [eauto with tidy] | intro]).
  eapply triple_bind; [| intro; apply tidy_renderLines].
  match goal with |- context [if ?b then _ else _] => destruct b end;
    eauto with tidy.
Qed.

Lemma body_tidy (result : AnalysisResult.t) :
  Layout.plain (body result) /\ Pdf.fontBold (body result) = false.
Proof.
  unfold Renderer.body. apply (tidy_layout result).
  split; [repeat constructor | reflexivity].
Qed.

(** What one footer does to a document whose font is normal. *)
Lemma stampFooter_page (pre : list (list Pdf.Draw)) (p : list Pdf.Draw)
    (post : list (list Pdf.Draw)) (s : State) :
  Pdf.pages (pdf s) = (pre ++ p :: post)%list ->
  Pdf.fontBold (pdf s) = false ->
  let s' := snd (stampFooter (S (List.length pre)) s) in
  Pdf.pages (pdf s') = (pre ++ (p ++ [stamp]) :: post)%list
  /\ Pdf.fontBold (pdf s') = false.
Proof.
  intros Hpages Hbold.
  cbv beta iota zeta delta
    [Renderer.stampFooter bind on_pdf setFontSize Pdf.text Pdf.setPage Pdf.setFontSize].
  cbn [snd pdf yPos Pdf.pages Pdf.currentPage Pdf.fontSize Pdf.fontBold].
  rewrite Hpages, Hbold, draw_on_page. split; reflexivity.
Qed.

(** The loop over the pages: after [k] rounds the first [k] pages that
    were still to do carry the stamp. *)
Lemma stamp_loop (k : nat) :
  forall (pre post : list (list Pdf.Draw)) (s : State),
    Pdf.pages (pdf s) = (pre ++ post)%list ->
    Pdf.fontBold (pdf s) = false ->
    (k <= List.length post)%nat ->
    Pdf.pages (pdf (snd (forEach (seq (S (List.length pre)) k) stampFooter s)))
    = (pre ++ map (fun page => page ++ [stamp]) (firstn k post) ++ skipn k post)%list.
Proof.
  induction k as [| k IH]; intros pre post s Hpages Hbold Hk.
  - simpl. exact Hpages.
  - destruct post as [| p post]; [simpl in Hk; lia |].
    cbn [seq forEach]. unfold bind at 1.
    destruct (stampFooter_page pre p post s Hpages Hbold) as [Hp' Hb'].
    destruct (stampFooter (S (List.length pre)) s) as [u s'] eqn:Es.
    cbn [snd] in Hp', Hb'.
    specialize (IH (pre ++ [p ++ [stamp]])%list post s').
    rewrite length_app in IH. cbn [List.length] in IH.
    rewrite Nat.add_1_r in IH. rewrite IH.
    + rewrite <- app_assoc. reflexivity.
    + rewrite Hp', <- app_assoc. reflexivity.
    + exact Hb'.
    + simpl in Hk. lia.
Qed.

Lemma stampFooters_pages (s : State) :
  Pdf.fontBold (pdf s) = false ->
  Pdf.pages (pdf (snd (stampFooters s)))
  = map (fun page => page ++ [stamp])%list (Pdf.pages (pdf s)).
Proof.
  intro Hbold. unfold Renderer.stampFooters.
  pose proof (stamp_loop (List.length (Pdf.pages (pdf s))) [] (Pdf.pages (pdf s)) s
                eq_refl Hbold (Nat.le_refl _)) as H.
  cbn [List.length app] in H. rewrite H.
  rewrite firstn_all, skipn_all. apply app_nil_r.
Qed.

Lemma stamps_of_stamped (page : list Pdf.Draw) :
  Forall (fun d => Pdf.centered d = false) page ->
  Layout.stamps (page ++ [stamp]) = [stamp].
Proof.
  intro H. unfold Layout.stamps. rewrite filter_app. simpl.
  induction H as [| d page Hd _ IH]; simpl; [reflexivity |].
  rewrite Hd. exact IH.
Qed.

(** C9.  Whatever the result, the exported document is the laid-out body
    with one text added at the end of every page.  That text is the same
    on every page: the footer line, centred at the middle of the page
    width, 8 above the bottom edge.  The body holds no centred text, so
    every page of the document carries exactly that one stamp; and the
    stamps are added to the finished body, in one pass over its pages. *)
Theorem every_page_stamped_once (result : AnalysisResult.t) :
  exists doc,
    exportToPDF (Some result) = Some doc
    /\ Pdf.pages doc = map (fun page => page ++ [stamp])%list (Pdf.pages (body result))
    /\ Layout.plain (body result)
    /\ Forall (fun page => Layout.stamps page = [stamp]) (Pdf.pages doc)
    /\ List.length (Pdf.pages doc) = List.length (Pdf.pages (body result))
    /\ Pdf.lines stamp = [footerText]
    /\ Pdf.centered stamp = true
    /\ Pdf.x stamp = pageWidth / 2
    /\ Pdf.y stamp = pageHeight - 8.
Proof.
  destruct (body_tidy result) as [Hplain Hbold].
  eexists. split; [reflexivity |].
  assert (Hpages :
            Pdf.pages (pdf (snd ((layout result ;;; stampFooters)
                                   {| pdf := Pdf.new; yPos := margin |})))
            = map (fun page => page ++ [stamp])%list (Pdf.pages (body result))).
  { unfold bind, Renderer.body.
    destruct (layout result {| pdf := Pdf.new; yPos := margin |}) as [u s] eqn:El.
    cbn [snd] in *. unfold Renderer.body in Hbold. rewrite El in Hbold.
    apply stampFooters_pages. exact Hbold. }
  split; [exact Hpages |]. split; [exact Hplain |]. split.
  - rewrite Hpages. apply Forall_map.
    eapply Forall_impl; [| exact Hplain]. intros page Hp. apply stamps_of_stamped, Hp.
  - split; [rewrite Hpages; apply length_map |]. repeat split; reflexivity.
Qed.

End LayoutFacts.

(** C7: the exported report of [Example.report], whose one reason runs
    over forty lines.  The page-break test asks for 284, more than a
    page offers, so the reason starts on a fresh page and still runs
    past the space kept for the body: its last line is written at 298,
    below the limit of about 282 and below the bottom edge of the page
    itself. *)
Theorem long_reason_written_below_the_body :
  exists doc page d,
    Example.exportToPDF Example.report = Some doc
    /\ List.length (Pdf.pages doc) = 3%nat
    /\ nth_error (Pdf.pages doc) 1 = Some page
    /\ nth_error page 42 = Some d
    /\ Pdf.lines d = ["a"]
    /\ Pdf.y d == 298
    /\ Renderer.beyond_body Example.pageHeight d = true
    /\ Example.pageHeight < Pdf.y d
    /\ ~ Layout.within_body Example.pageHeight doc.
Proof.
  destruct (Example.exportToPDF Example.report) as [doc|] eqn:Edoc;
    [| vm_compute in Edoc; discriminate Edoc].
  destruct (nth_error (Pdf.pages doc) 1) as [page|] eqn:Epage;
    [| vm_compute in Edoc; injection Edoc as <-; vm_compute in Epage; discriminate Epage].
  destruct (nth_error page 42) as [d|] eqn:Ed;
    [| vm_compute in Edoc; injection Edoc as <-; vm_compute in Epage;
       injection Epage as <-; vm_compute in Ed; discriminate Ed].
  assert (Hd : Pdf.lines d = ["a"] /\ Pdf.y d == 298
               /\ Renderer.beyond_body Example.pageHeight d = true
               /\ Example.pageHeight < Pdf.y d
               /\ List.length (Pdf.pages doc) = 3%nat).
  { vm_compute in Edoc. injection Edoc as <-. vm_compute in Epage.
    injection Epage as <-. vm_compute in Ed. injection Ed as <-.
    repeat split; reflexivity. }
  destruct Hd as [Hl [Hy [Hb [Hlow Hlen]]]].
  exists doc, page, d. repeat split; auto.
  intro Hin. unfold Layout.within_body in Hin.
  rewrite Forall_forall in Hin. specialize (Hin page (nth_error_In _ _ Epage)).
  rewrite Forall_forall in Hin. specialize (Hin d (nth_error_In _ _ Ed)).
  congruence.
Qed.

(** ** The emphasis pass *)












(** ** The sanitiser *)

Lemma flat_map_compose {A B C} (f : A -> list B) (g : B -> list C) (l : list A) :
  flat_map g (flat_map f l) = flat_map (fun a => flat_map g (f a)) l.
Proof.
  induction l as [| a l IH]; simpl; [reflexivity |].
  rewrite flat_map_app, IH. reflexivity.
Qed.

Lemma sanitize_unfold (t : Text.t) :
  Sanitizer.sanitizeTextForPDF t
  = Sanitizer.replaceNonAscii
      (Sanitizer.replaceAll 8230 (Text.of_ascii "...")
      (Sanitizer.replaceEither 39 39 [39%N]
      (Sanitizer.replaceEither 34 34 [34%N]
      (Sanitizer.replaceAll 8212 (Text.of_ascii "-")
      (Sanitizer.replaceAll 8211 (Text.of_ascii "-")
      (Sanitizer.replaceAll 179 []
      (Sanitizer.replaceAll 178 []
      (Sanitizer.replaceAll 185 (Text.of_ascii "Rs.")
      (Sanitizer.replaceAll 165 (Text.of_ascii "JPY")
      (Sanitizer.replaceAll 163 (Text.of_ascii "GBP")
      (Sanitizer.replaceAll 8364 (Text.of_ascii "EUR")
      (Sanitizer.replaceAll 8377 (Text.of_ascii "Rs.") t)))))))))))).
Proof. destruct t; reflexivity. Qed.

(** X4.  The sanitiser rewrites every character on its own: the
    sanitised form of two texts put together is the two sanitised forms
    put together.  So it does not matter whether a text is sanitised
    before or after it is joined with another. *)
Theorem sanitize_concatenation (a b : Text.t) :
  Sanitizer.sanitizeTextForPDF (a ++ b)%list
  = (Sanitizer.sanitizeTextForPDF a ++ Sanitizer.sanitizeTextForPDF b)%list.
Proof.
  rewrite !sanitize_unfold.
  unfold Sanitizer.replaceAll, Sanitizer.replaceEither, Sanitizer.replaceNonAscii.
  rewrite !flat_map_app, map_app. reflexivity.
Qed.

Lemma sanitize_cons (u : N) (t : Text.t) :
  Sanitizer.sanitizeTextForPDF (u :: t)
  = (Sanitizer.sanitizeTextForPDF [u] ++ Sanitizer.sanitizeTextForPDF t)%list.
Proof.
  rewrite !sanitize_unfold.
  unfold Sanitizer.replaceAll, Sanitizer.replaceEither, Sanitizer.replaceNonAscii.
  change (u :: t) with ([u] ++ t)%list.
  rewrite !flat_map_app, map_app. reflexivity.
Qed.

Lemma sanitize_units (t : Text.t) :
  Sanitizer.sanitizeTextForPDF t
  = flat_map (fun u => Sanitizer.sanitizeTextForPDF [u]) t.
Proof.
  induction t as [| u t IH]; [reflexivity |].
  rewrite sanitize_cons, IH. reflexivity.
Qed.

(** The tests the sanitiser makes on one character, in its order. *)
Ltac sanitizer_cases u :=
  unfold Sanitizer.sanitizeTextForPDF, Sanitizer.replaceAll, Sanitizer.replaceEither,
    Sanitizer.replaceNonAscii;
  cbn [flat_map map app];
  repeat match goal with
         | |- context [(u =? ?c)%N] =>
             destruct (N.eqb_spec u c) as [-> | ?];
             [ vm_compute | cbn [flat_map map app orb] ]
         end;
  try match goal with
      | |- context [(127 <? u)%N] =>
          destruct (N.ltb_spec 127 u); cbn [flat_map map app]
      end.

Lemma sanitize_unit_ascii (u : N) : Text.is_ascii (Sanitizer.sanitizeTextForPDF [u]).
Proof.
  unfold Text.is_ascii.
  sanitizer_cases u;
    repeat (constructor; [first [lia | discriminate] |]); constructor.
Qed.

Lemma sanitize_unit_fixed (u : N) :
  (u <= 127)%N -> Sanitizer.sanitizeTextForPDF [u] = [u].
Proof.
  intro Hu. sanitizer_cases u; try reflexivity; lia.
Qed.

(** X1.  Whatever the text, every character of its sanitised form is an
    ASCII character. *)
Theorem sanitized_text_is_ascii (t : Text.t) :
  Text.is_ascii (Sanitizer.sanitizeTextForPDF t).
Proof.
  rewrite sanitize_units. unfold Text.is_ascii.
  induction t as [| u t IH]; cbn [flat_map]; [constructor |].
  apply Forall_app. split; [apply sanitize_unit_ascii | exact IH].
Qed.

Lemma sanitize_ascii_list (t : Text.t) :
  Text.is_ascii t -> Sanitizer.sanitizeTextForPDF t = t.
Proof.
  intro H. rewrite sanitize_units.
  induction H as [| u t Hu _ IH]; [reflexivity |].
  cbn [flat_map]. rewrite (sanitize_unit_fixed u Hu), IH. reflexivity.
Qed.

(** X2.  A text that is ASCII already comes out of the sanitiser
    unchanged: quotes, digits, letters and control characters included. *)
Theorem ascii_text_is_kept (t : Text.t) :
  Text.is_ascii t -> Sanitizer.sanitizeTextForPDF t = t.
Proof.
  intro H. rewrite sanitize_units.
  induction H as [| u t Hu _ IH]; [reflexivity |].
  cbn [flat_map]. rewrite IH.
  assert (E : Sanitizer.sanitizeTextForPDF [u] = [u])
    by (sanitizer_cases u; try reflexivity; lia).
  rewrite E. reflexivity.
Qed.

Lemma ascii_text_is_kept_witness :
  Text.is_ascii (Text.of_ascii "Total: $1,200 (paid)")
  /\ Sanitizer.sanitizeTextForPDF (Text.of_ascii "Total: $1,200 (paid)")
     = Text.of_ascii "Total: $1,200 (paid)".
Proof.
  assert (H : Text.is_ascii (Text.of_ascii "Total: $1,200 (paid)")).
  { unfold Text.is_ascii. vm_compute. repeat (constructor; [discriminate |]). constructor. }
  split; [exact H | apply (ascii_text_is_kept _ H)].
Defined.

(** X3.  Sanitising twice gives what sanitising once gives. *)
Theorem sanitize_idempotent (t : Text.t) :
  Sanitizer.sanitizeTextForPDF (Sanitizer.sanitizeTextForPDF t)
  = Sanitizer.sanitizeTextForPDF t.
Proof.
  apply sanitize_ascii_list.
  rewrite sanitize_units. unfold Text.is_ascii.
  induction t as [| u t IH]; cbn [flat_map]; [constructor |].
  apply Forall_app. split; [apply sanitize_unit_ascii | exact IH].
Qed.

(** ** The name of the saved report *)

(** Tests on code units, as propositions. *)
Ltac units_to_prop :=
  rewrite ?orb_true_iff, ?andb_true_iff, ?orb_false_iff, ?andb_false_iff,
    ?N.leb_le, ?N.leb_gt, ?N.eqb_eq, ?N.eqb_neq in *.

Lemma slug_unit_plain (u : N) :
  let v := if Naming.is_alnum u then u else 45%N in
  Naming.plain_unit (if ((65 <=? v) && (v <=? 90))%N then (v + 32)%N else v) = true.
Proof.
  cbv zeta. unfold Naming.plain_unit.
  destruct (Naming.is_alnum u) eqn:Ea; unfold Naming.is_alnum in Ea.
  - destruct ((65 <=? u) && (u <=? 90))%N eqn:Eu; units_to_prop; lia.
  - reflexivity.
Qed.

Lemma slug_unit_fixed (v : N) :
  Naming.plain_unit v = true ->
  (if ((65 <=? (if Naming.is_alnum v then v else 45))
       && ((if Naming.is_alnum v then v else 45) <=? 90))%N
   then ((if Naming.is_alnum v then v else 45) + 32)%N
   else (if Naming.is_alnum v then v else 45%N)) = v.
Proof.
  unfold Naming.plain_unit. intro Hp.
  destruct (Naming.is_alnum v) eqn:Ea; unfold Naming.is_alnum in Ea.
  - destruct ((65 <=? v) && (v <=? 90))%N eqn:Eu; [| reflexivity].
    units_to_prop. lia.
  - units_to_prop. assert (v = 45%N) by lia. subst v. reflexivity.
Qed.

Lemma slug_plain (name : Text.t) : Forall (fun u => Naming.plain_unit u = true) (Naming.slug name).
Proof.
  unfold Naming.slug, Naming.toLowerCase, Naming.replaceUnsafe.
  rewrite map_map. apply Forall_map, Forall_forall. intros u _. apply slug_unit_plain.
Qed.

(** X5.  The name under which the report is saved, up to the time stamp:
    when the way numbers are printed gives digits only, the name consists
    of lowercase letters, digits and hyphens only, whatever the file
    names of the result are. *)
Theorem report_name_is_plain (Number_toString : Q -> Text.t)
    (filenames : option (list Text.t)) (filename : option Text.t) :
  (forall q, Forall (fun u => Naming.plain_unit u = true) (Number_toString q)) ->
  Forall (fun u => Naming.plain_unit u = true)
         (Naming.pdfFilename Number_toString filenames filename).
Proof.
  intro Hdigits. unfold Naming.pdfFilename.
  assert (Hprefix : Forall (fun u => Naming.plain_unit u = true)
                           (Text.of_ascii "veriweave-report-"))
    by (vm_compute; repeat constructor).
  assert (Hbatch : Forall (fun u => Naming.plain_unit u = true)
                          (Text.of_ascii "veriweave-report-batch-"))
    by (vm_compute; repeat constructor).
  assert (Hfiles : Forall (fun u => Naming.plain_unit u = true) (Text.of_ascii "-files"))
    by (vm_compute; repeat constructor).
  assert (Hnone : Forall (fun u => Naming.plain_unit u = true)
                         (Text.of_ascii "veriweave-report-analysis"))
    by (vm_compute; repeat constructor).
  destruct filenames as [[| f [| g rest]] |].
  - destruct filename as [[| u name] |]; try exact Hnone.
    apply Forall_app. split; [exact Hprefix | apply slug_plain].
  - apply Forall_app. split; [exact Hprefix | apply slug_plain].
  - apply Forall_app. split; [exact Hbatch |].
    apply Forall_app. split; [apply Hdigits | exact Hfiles].
  - destruct filename as [[| u name] |]; try exact Hnone.
    apply Forall_app. split; [exact Hprefix | apply slug_plain].
Qed.

(** X6.  Making a file name safe keeps its length, one character for
    one, and a name that is safe already is left as it is: making it
    safe twice is making it safe once. *)
Theorem slug_keeps_length_and_is_idempotent (name : Text.t) :
  List.length (Naming.slug name) = List.length name
  /\ (Forall (fun u => Naming.plain_unit u = true) name -> Naming.slug name = name)
  /\ Naming.slug (Naming.slug name) = Naming.slug name.
Proof.
  assert (Hfix : forall l, Forall (fun u => Naming.plain_unit u = true) l ->
                           Naming.slug l = l).
  { intros l Hl. unfold Naming.slug, Naming.toLowerCase, Naming.replaceUnsafe.
    rewrite map_map. induction Hl as [| v l Hv _ IH]; [reflexivity |].
    cbn [map]. rewrite IH, (slug_unit_fixed v Hv). reflexivity. }
  split; [| split].
  - unfold Naming.slug, Naming.toLowerCase, Naming.replaceUnsafe.
    rewrite !length_map. reflexivity.
  - apply Hfix.
  - apply Hfix, slug_plain.
Qed.

Lemma report_name_is_plain_witness :
  (forall q : Q, Forall (fun u => Naming.plain_unit u = true)
                        ((fun _ => Text.of_ascii "2") q))
  /\ Forall (fun u => Naming.plain_unit u = true)
            (Naming.pdfFilename (fun _ => Text.of_ascii "2")
               (Some [Text.of_ascii "Invoice 01.PDF"; Text.of_ascii "receipt.png"]) None).
Proof.
  assert (H : forall q : Q, Forall (fun u => Naming.plain_unit u = true)
                                   ((fun _ => Text.of_ascii "2") q))
    by (intro q; vm_compute; repeat constructor).
  split; [exact H | apply (report_name_is_plain _ _ _ H)].
Defined.

(** ** The server *)

Lemma append_assoc3 (a b c : string) : (a ++ b) ++ c = a ++ b ++ c.
Proof. induction a as [| x a IH]; simpl; [reflexivity | rewrite IH; reflexivity]. Qed.

Lemma free_of_cons (c x : ascii) (s : string) :
  Server.free_of c (String x s) <-> x <> c /\ Server.free_of c s.
Proof.
  unfold Server.free_of. split.
  - intro H. split.
    + intros ->. apply (H "" s). reflexivity.
    + intros before after E. apply (H (String x before) after). simpl. rewrite E. reflexivity.
  - intros [Hx Hs] before after E. destruct before as [| y before]; simpl in E.
    + injection E as E _. congruence.
    + injection E as _ E. apply (Hs before after E).
Qed.

Lemma free_of_empty (c : ascii) : Server.free_of c "".
Proof. intros [| y before] after E; simpl in E; discriminate E. Qed.

Lemma from_open_spec (s t : string) :
  Server.from_open s = Some t <->
  exists before rest,
    s = before ++ String "{" rest /\ t = String "{" rest /\ Server.free_of "{" before.
Proof.
  split.
  - revert t. induction s as [| c s IH]; intros t H; simpl in H; [discriminate H |].
    destruct (Ascii.eqb_spec c "{") as [-> | Hne].
    + injection H as <-. exists "", s. repeat split. apply free_of_empty.
    + destruct (IH t H) as [before [rest [E1 [E2 Hf]]]].
      exists (String c before), rest. simpl. rewrite E1. repeat split; try assumption.
      apply free_of_cons. split; assumption.
  - intros [before [rest [E1 [E2 Hf]]]]. subst s t.
    induction before as [| c before IH]; simpl.
    + reflexivity.
    + apply free_of_cons in Hf. destruct Hf as [Hc Hf].
      destruct (Ascii.eqb_spec c "{") as [-> | _]; [congruence | apply IH, Hf].
Qed.

Lemma to_last_close_None (s : string) :
  Server.to_last_close s = None <-> Server.free_of "}" s.
Proof.
  induction s as [| c s IH]; simpl.
  - split; [intros _; apply free_of_empty | reflexivity].
  - rewrite free_of_cons. destruct (Server.to_last_close s) as [kept |].
    + split; [discriminate |]. intros [_ Hf]. apply IH in Hf. discriminate Hf.
    + destruct (Ascii.eqb_spec c "}") as [-> | Hne].
      * split; [discriminate | intros [Hc _]; congruence].
      * split; [intros _; split; [exact Hne | apply IH; reflexivity] | reflexivity].
Qed.

Lemma to_last_close_spec (s kept : string) :
  Server.to_last_close s = Some kept <->
  exists middle after,
    s = middle ++ String "}" after /\ kept = middle ++ "}" /\ Server.free_of "}" after.
Proof.
  split.
  - revert kept. induction s as [| c s IH]; intros kept H; simpl in H; [discriminate H |].
    destruct (Server.to_last_close s) as [k |] eqn:Ek.
    + injection H as <-. destruct (IH k eq_refl) as [middle [after [E1 [E2 Hf]]]].
      exists (String c middle), after. simpl. rewrite E1, E2. repeat split. exact Hf.
    + destruct (Ascii.eqb_spec c "}") as [-> | Hne]; [| discriminate H].
      injection H as <-. exists "", s. repeat split. apply to_last_close_None, Ek.
  - intros [middle [after [E1 [E2 Hf]]]]. subst s kept.
    induction middle as [| c middle IH]; simpl.
    + apply to_last_close_None in Hf. rewrite Hf. reflexivity.
    + rewrite IH. reflexivity.
Qed.

(** X7.  What is taken from the model's answer as JSON: the text from
    its first opening brace to its last closing brace, both included.
    Nothing before the first opening brace and nothing after the last
    closing brace is kept, and everything between them is. *)
Theorem json_is_cut_from_first_to_last_brace (text matched : string) :
  Server.jsonMatch text = Some matched <->
  exists before middle after,
    text = before ++ "{" ++ middle ++ "}" ++ after
    /\ matched = "{" ++ middle ++ "}"
    /\ Server.free_of "{" before
    /\ Server.free_of "}" after.
Proof.
  unfold Server.jsonMatch. split.
  - destruct (Server.from_open text) as [[| c rest] |] eqn:Eo; try discriminate.
    apply from_open_spec in Eo.
    destruct Eo as [before [rest' [E1 [E2 Hf]]]]. injection E2 as -> ->.
    destruct (Server.to_last_close rest') as [kept |] eqn:Ec; [| discriminate].
    apply to_last_close_spec in Ec. destruct Ec as [middle [after [E3 [E4 Hf']]]].
    intros [= <-]. exists before, middle, after. subst. repeat split; assumption.
  - intros [before [middle [after [E1 [E2 [Hf Hf']]]]]]. subst text matched.
    assert (Eo : Server.from_open (before ++ "{" ++ middle ++ "}" ++ after)
                 = Some (String "{" (middle ++ String "}" after))).
    { apply from_open_spec. exists before, (middle ++ String "}" after).
      repeat split. exact Hf. }
    rewrite Eo.
    assert (Ec : Server.to_last_close (middle ++ String "}" after) = Some (middle ++ "}")).
    { apply to_last_close_spec. exists middle, after. repeat split. exact Hf'. }
    rewrite Ec. reflexivity.
Qed.

Lemma close_after_open (before rest a b c : string) :
  Server.free_of "{" before ->
  before ++ String "{" rest = a ++ "{" ++ b ++ "}" ++ c ->
  exists x y, rest = x ++ String "}" y.
Proof.
  revert a. induction before as [| p before IH]; intros a Hf E.
  - destruct a as [| q a]; simpl in E.
    + injection E as E. exists b, c. exact E.
    + injection E as _ E. exists (a ++ "{" ++ b), c.
      rewrite E, append_assoc3. reflexivity.
  - apply free_of_cons in Hf. destruct Hf as [Hp Hf].
    destruct a as [| q a]; simpl in E; injection E as E1 E2.
    + congruence.
    + apply (IH a Hf E2).
Qed.

(** X8.  Nothing is taken from the model's answer exactly when the
    answer has no opening brace with a closing brace somewhere after
    it. *)
Theorem no_json_without_a_brace_pair (text : string) :
  Server.jsonMatch text = None <->
  ~ exists a b c, text = a ++ "{" ++ b ++ "}" ++ c.
Proof.
  unfold Server.jsonMatch. split.
  - intros H [a [b [c E]]].
    destruct (Server.from_open text) as [[| o rest] |] eqn:Eo.
    + apply from_open_spec in Eo. destruct Eo as [x [y [_ [E2 _]]]]. discriminate E2.
    + apply from_open_spec in Eo. destruct Eo as [before [rest' [E1 [E2 Hf]]]].
      injection E2 as -> ->.
      destruct (Server.to_last_close rest') as [kept |] eqn:Ec; [discriminate H |].
      apply to_last_close_None in Ec. rewrite E1 in E.
      destruct (close_after_open _ _ _ _ _ Hf E) as [x [y Exy]].
      apply (Ec x y Exy).
    + clear H. assert (Hf : Server.free_of "{" text).
      { clear E. induction text as [| p text IH]; [apply free_of_empty |].
        simpl in Eo. destruct (Ascii.eqb_spec p "{") as [-> | Hne]; [discriminate Eo |].
        apply free_of_cons. split; [exact Hne | apply IH, Eo]. }
      apply (Hf a (b ++ "}" ++ c)). exact E.
  - intro Hno.
    destruct (Server.from_open text) as [[| o rest] |] eqn:Eo; try reflexivity.
    apply from_open_spec in Eo. destruct Eo as [before [rest' [E1 [E2 Hf]]]].
    injection E2 as -> ->.
    destruct (Server.to_last_close rest') as [kept |] eqn:Ec; [| reflexivity].
    apply to_last_close_spec in Ec. destruct Ec as [middle [after [E3 _]]].
    exfalso. apply Hno. exists before, middle, after. rewrite E1, E3. reflexivity.
Qed.

Lemma validate_fields_present (b : Batch.t) : Server.fields_present (Server.validate b).
Proof.
  unfold Server.fields_present, Canonical.has_verdict, Server.validate.
  cbn [Batch.authenticity_score Batch.risk_level Batch.verdict Batch.reasons
       Batch.signals Batch.category_scores].
  split; [eexists; reflexivity |]. split; [| split; [| split; [| split]]].
  - destruct (truthy_cases (Batch.risk_level b)) as [[Et _] | [level [Et [El Hne]]]];
      rewrite Et; cbn [negb].
    + eexists. split; [reflexivity | apply riskOf_not_empty].
    + exists level. auto.
  - destruct (truthy_cases (Batch.verdict b)) as [[Et _] | [v [Et [Ev Hne]]]];
      rewrite Et; cbn [negb].
    + eexists. split; [reflexivity | discriminate].
    + exists v. auto.
  - destruct (Batch.reasons b); eexists; reflexivity.
  - destruct (Batch.signals b); eexists; reflexivity.
  - destruct (Batch.category_scores b); eexists; reflexivity.
Qed.

(** X9.  Every answer of the batch route with status 200 carries a
    score, a non-empty risk level, a non-empty verdict, reasons, signals
    and category scores, whatever the model sent; its file names are the
    names of the uploaded files, of which there is at least one, and its
    claim is the claim of the request, which is not blank. *)
Theorem batch_route_answers_in_full (JSON_parse : string -> option Batch.t)
    (files : list string) (claim : option string) (text : string) (saved : bool)
    (result : Batch.t) :
  Server.analyzeBatch JSON_parse files claim text saved = Server.Json200 result ->
  Server.fields_present result
  /\ Batch.filenames result = Some files /\ files <> []
  /\ Batch.batch_size result = Some (List.length files)
  /\ exists claimText,
       claim = Some claimText /\ Batch.claim result = Some claimText
       /\ claimText <> "" /\ Server.blank claimText = false.
Proof.
  unfold Server.analyzeBatch, Server.analyzeBatchFiles.
  destruct files as [| f fs]; [discriminate |]. cbn [List.length Nat.eqb].
  destruct claim as [claimText |]; [| discriminate].
  destruct (truthy_cases (Some claimText)) as [[Et _] | [c [Et [Ec Hne]]]];
    rewrite Et; cbn [negb orb]; [discriminate |].
  injection Ec as <-.
  destruct (Server.blank claimText) eqn:Eb; [discriminate |].
  destruct (Server.jsonMatch text) as [matched |]; [| discriminate].
  destruct (JSON_parse matched) as [parsed |]; [| discriminate].
  destruct saved; [| discriminate].
  intros [= <-].
  pose proof (validate_fields_present parsed) as Hv.
  split; [exact Hv |]. split; [reflexivity |]. split; [discriminate |].
  split; [reflexivity |]. exists claimText. auto.
Qed.

Lemma batch_route_answers_in_full_witness :
  let parse := fun _ : string => Some Example.empty in
  exists result,
    Server.analyzeBatch parse ["a.pdf"] (Some "Invoice") "Here it is: {} (done)" true
      = Server.Json200 result
    /\ Server.fields_present result.
Proof.
  cbv zeta. eexists. split; [reflexivity |].
  apply (batch_route_answers_in_full (fun _ => Some Example.empty) ["a.pdf"]
           (Some "Invoice") "Here it is: {} (done)" true _ eq_refl).
Defined.

Lemma fill_keeps_supplied_verdict (Number_toString : Q -> string)
    (files : list string) (b : Batch.t) :
  Canonical.has_verdict b ->
  Canonical.has_verdict (Normalizer.fillMissing Number_toString files b).
Proof.
  intros [v [Ev Hne]]. unfold Canonical.has_verdict, Normalizer.fillMissing.
  cbn [Batch.verdict]. rewrite Ev.
  destruct (negb (Js.truthy (Some v)) || Js.is_string (Some v) default_verdict).
  - destruct (Js.gt _ 0).
    + eexists. split; [reflexivity | discriminate].
    + exists v. auto.
  - exists v. auto.
Qed.

(** X10.  The two ends together.  When the batch route answers 200 and
    the client gets that answer for the files it uploaded, the client
    reports no error and stores a result.  In the new-format path that
    result is a complete finding: score, risk level, non-empty verdict,
    non-empty reasons and signals, category scores and the uploaded file
    names are all there.  Should the model's answer carry a non-empty
    [results] list, the client merges that list instead, and every
    field of the merge is written. *)
Theorem route_then_client_is_complete (JSON_parse : string -> option Batch.t)
    (Number_toString : Q -> string)
    (files : list string) (claim : option string) (text : string) (saved : bool)
    (clientClaim : string) (result : Batch.t) :
  Server.analyzeBatch JSON_parse files claim text saved = Server.Json200 result ->
  exists r,
    Normalizer.handleBatchUpload Number_toString files clientClaim (DObj result)
      = SetBatchResults r
    /\ match Normalizer.oldFormat result with
       | None => Canonical.complete r /\ Batch.filenames r = Some files
                 /\ Batch.authenticity_score r = Batch.authenticity_score result
       | Some _ => Canonical.merged r
       end.
Proof.
  intro Hroute.
  assert (Hfull : Server.fields_present result /\ Batch.filenames result = Some files
                  /\ files <> []).
  { revert Hroute. unfold Server.analyzeBatch, Server.analyzeBatchFiles.
    destruct files as [| f fs]; [discriminate |]. cbn [List.length Nat.eqb].
    destruct claim as [claimText |]; [| discriminate].
    destruct (negb (Js.truthy (Some claimText)) || Server.blank claimText);
      [discriminate |].
    destruct (Server.jsonMatch text) as [matched |]; [| discriminate].
    destruct (JSON_parse matched) as [parsed |]; [| discriminate].
    destruct saved; [| discriminate].
    intros [= <-].
    split; [apply (validate_fields_present parsed) |]. split; [reflexivity | discriminate]. }
  destruct Hfull as [[[score Hscore] [_ [Hverdict _]]] [Hnames Hfiles]].
  unfold Normalizer.handleBatchUpload.
  destruct files as [| f fs]; [congruence |]. cbn [List.length Nat.eqb truthy_data].
  eexists. split; [reflexivity |]. unfold Normalizer.normalize.
  destruct (Normalizer.oldFormat result) as [results |] eqn:Eold.
  - apply oldFormat_Some in Eold. destruct Eold as [_ Hne].
    destruct results as [| r rest]; [congruence |]. apply merge_writes_every_field.
  - split; [split |].
    + apply fill_repairs. discriminate.
    + apply fill_keeps_supplied_verdict, Hverdict.
    + unfold Normalizer.fillMissing. cbn [Batch.filenames Batch.authenticity_score].
      rewrite Hnames, Hscore. split; reflexivity.
Qed.

Lemma route_then_client_is_complete_witness :
  let parse := fun _ : string => Some Example.empty in
  exists result r,
    Server.analyzeBatch parse ["a.pdf"] (Some "Invoice") "{}" true = Server.Json200 result
    /\ Normalizer.handleBatchUpload Example.decimal ["a.pdf"] "Invoice" (DObj result)
       = SetBatchResults r
    /\ Canonical.complete r.
Proof.
  cbv zeta. eexists.
  destruct (route_then_client_is_complete (fun _ => Some Example.empty) Example.decimal
              ["a.pdf"] (Some "Invoice") "{}" true "Invoice" _ eq_refl)
    as [r [Hr Hc]].
  exists r. split; [reflexivity |]. split; [exact Hr |]. exact (proj1 Hc).
Defined.

(** X11.  A verdict that the model left out reaches the user as the
    generated sentence, which names the score, when the score is above
    0, and as the server's default sentence otherwise: the server puts
    the default in, and the client replaces it only for a score above
    0. *)
Theorem missing_verdict_end_to_end (Number_toString : Q -> string)
    (files : list string) (parsed : Batch.t) :
  Js.truthy (Batch.verdict parsed) = false ->
  let score := Canonical.supplied_score parsed in
  Batch.verdict (Normalizer.fillMissing Number_toString files (Server.validate parsed))
  = Some (if Js.gt score 0
          then Canonical.generated_verdict Number_toString score
          else default_verdict).
Proof.
  intro Ht. cbv zeta. unfold Normalizer.fillMissing, Server.validate.
  cbn [Batch.verdict Batch.authenticity_score]. rewrite Ht. cbn [negb].
  fold (Canonical.value (Batch.authenticity_score parsed)).
  fold (Canonical.supplied_score parsed).
  change (Js.is_string (Some default_verdict) default_verdict) with true.
  rewrite orb_true_r.
  destruct (Js.gt (Canonical.supplied_score parsed) 0); reflexivity.
Qed.

Lemma missing_verdict_end_to_end_witness :
  Js.truthy (Batch.verdict (Example.scored 62)) = false
  /\ Batch.verdict
       (Normalizer.fillMissing Example.decimal ["a.pdf"]
          (Server.validate (Example.scored 62)))
     = Some "Unified multimodal analysis completed with 62% authenticity score.".
Proof.
  split; [reflexivity |].
  exact (missing_verdict_end_to_end Example.decimal ["a.pdf"] (Example.scored 62) eq_refl).
Defined.

(** ** The status beside the score *)

(** X12.  The status shown beside a score and the risk level the score
    maps to never contradict each other at the ends of the scale:
    "AUTHENTIC" is shown only for a score whose level is "Low", a score
    whose level is "High" is always shown as "TAMPERED", and "TAMPERED"
    is never shown for a score whose level is "Low".  In between the two
    scales differ: a score of 45 is "Medium" and "TAMPERED", a score of
    75 is "Low" and "SUSPICIOUS". *)
Theorem status_agrees_with_level_at_the_ends (score : Q) :
  (Status.label (Status.getRiskStatus score) = "AUTHENTIC" -> riskOf score = "Low")
  /\ (riskOf score = "High" -> Status.label (Status.getRiskStatus score) = "TAMPERED")
  /\ (Status.label (Status.getRiskStatus score) = "TAMPERED" -> riskOf score <> "Low")
  /\ (Status.label (Status.getRiskStatus 45) = "TAMPERED" /\ riskOf 45 = "Medium")
  /\ (Status.label (Status.getRiskStatus 75) = "SUSPICIOUS" /\ riskOf 75 = "Low").
Proof.
  unfold Status.getRiskStatus.
  destruct (riskOf_cases score) as [[H E] | [[H1 [H2 E]] | [H E]]]; rewrite E;
    destruct (Js.ge score 80) eqn:E80; destruct (Js.ge score 50) eqn:E50;
    cbn [Status.label];
    try (apply ge_spec in E80); try (apply ge_spec in E50);
    repeat split; intros; try discriminate; try reflexivity;
    try (exfalso; lra);
    try (exfalso;
         assert (H50 : 50 <= score) by lra; apply ge_spec in H50; congruence).
Qed.

(** ** More on the normaliser *)

Section MoreNormalizerFacts.

Variable Number_toString : Q -> string.

Lemma fill_risk_again (level : option string) (q : Q) :
  let first :=
    if negb (Js.truthy level) || (Js.is_string level "High" && Js.gt q 39)
    then Some (riskOf q) else level in
  (if negb (Js.truthy first) || (Js.is_string first "High" && Js.gt q 39)
   then Some (riskOf q) else first) = first.
Proof.
  cbv zeta.
  destruct (negb (Js.truthy level) || (Js.is_string level "High" && Js.gt q 39)) eqn:E.
  - destruct (negb (Js.truthy (Some (riskOf q)))
              || (Js.is_string (Some (riskOf q)) "High" && Js.gt q 39));
      reflexivity.
  - rewrite E. reflexivity.
Qed.

Lemma fill_verdict_again (verdict : option string) (q : Q) :
  let first :=
    if negb (Js.truthy verdict) || Js.is_string verdict default_verdict
    then if Js.gt q 0
         then Some ("Unified multimodal analysis completed with "
                    ++ Number_toString q ++ "% authenticity score.")
         else verdict
    else verdict in
  (if negb (Js.truthy first) || Js.is_string first default_verdict
   then if Js.gt q 0
        then Some ("Unified multimodal analysis completed with "
                   ++ Number_toString q ++ "% authenticity score.")
        else first
   else first) = first.
Proof.
  cbv zeta.
  destruct (negb (Js.truthy verdict) || Js.is_string verdict default_verdict) eqn:E.
  - destruct (Js.gt q 0) eqn:Eg.
    + reflexivity.
    + rewrite E. reflexivity.
  - rewrite E. reflexivity.
Qed.

Lemma fill_list_again (a : option (list string)) (lit : string) :
  let first :=
    if negb (Js.isArray a) || (Js.len a =? 0)%nat || Js.is_just a lit
    then if Js.isArray a && (0 <? Js.len a)%nat then a else Some [lit]
    else a in
  (if negb (Js.isArray first) || (Js.len first =? 0)%nat || Js.is_just first lit
   then if Js.isArray first && (0 <? Js.len first)%nat then first else Some [lit]
   else first) = first.
Proof.
  cbv zeta. destruct a as [[| s [| t rest]] |]; simpl; try reflexivity.
  - rewrite String.eqb_refl. reflexivity.
  - destruct (s =? lit) eqn:E; simpl; rewrite ?E; reflexivity.
  - rewrite String.eqb_refl. reflexivity.
Qed.

Lemma fill_categories_again (c : option CategoryScores) (q : Q) :
  let six (score : Q) :=
    {| multimodal_match := Some score; document_forensics := Some score;
       visual_artifacts := Some score; logical_consistency := Some score;
       synthetic_signs := Some score; shadow_perspective := Some score |} in
  let test (c : option CategoryScores) :=
    match c with
    | None => true
    | Some c => forallb (fun v => Qeq_bool v 0) (Object_values c)
    end in
  let first := if test c then Some (six (Js.or_zero (Some q))) else c in
  (if test first then Some (six (Js.or_zero (Some q))) else first) = first.
Proof.
  cbv zeta.
  destruct (match c with
            | Some c0 => forallb (fun v => Qeq_bool v 0) (Object_values c0)
            | None => true
            end) eqn:E.
  - match goal with |- (if ?t then _ else _) = _ => destruct t end; reflexivity.
  - rewrite E. reflexivity.
Qed.

Lemma fill_names_again (a files : option (list string)) :
  let test (a : option (list string)) := negb (Js.isArray a) || (Js.len a =? 0)%nat in
  forall l, files = Some l ->
  let first := if test a then Some l else a in
  (if test first then Some l else first) = first.
Proof.
  cbv zeta. intros l _. destruct a as [[| f fs] |]; simpl;
    try reflexivity; destruct l; reflexivity.
Qed.

(** X13.  In the new-format path the normaliser repairs once and for
    all: normalising a result that has been normalised changes nothing. *)
Theorem normalize_twice_is_normalize_once (files : list string) (claim : string)
    (b : Batch.t) :
  Normalizer.oldFormat b = None ->
  Normalizer.normalize Number_toString files claim
    (Normalizer.normalize Number_toString files claim b)
  = Normalizer.normalize Number_toString files claim b.
Proof.
  intro Hnew.
  assert (Hfill : Normalizer.normalize Number_toString files claim b
                  = Normalizer.fillMissing Number_toString files b).
  { unfold Normalizer.normalize. rewrite Hnew. reflexivity. }
  rewrite Hfill.
  assert (Hnew' : Normalizer.oldFormat (Normalizer.fillMissing Number_toString files b)
                  = None).
  { unfold Normalizer.oldFormat in *. exact Hnew. }
  unfold Normalizer.normalize at 1. rewrite Hnew'.
  unfold Normalizer.fillMissing at 1.
  set (once := Normalizer.fillMissing Number_toString files b).
  assert (Hscore : Batch.authenticity_score once
                   = Some (Canonical.supplied_score b)) by reflexivity.
  rewrite Hscore.
  unfold once, Normalizer.fillMissing.
  cbn [Batch.results Batch.risk_level Batch.verdict Batch.reasons Batch.signals
       Batch.category_scores Batch.filenames Batch.claim Batch.batch_size
       Batch.analysis_type].
  fold (Canonical.value (Batch.authenticity_score b)).
  fold (Canonical.supplied_score b).
  f_equal.
  - apply fill_risk_again.
  - apply fill_verdict_again.
  - apply fill_list_again.
  - apply fill_list_again.
  - apply (fill_categories_again (Batch.category_scores b) (Canonical.supplied_score b)).
  - apply (fill_names_again (Batch.filenames b) (Some files) files eq_refl).
Qed.

End MoreNormalizerFacts.

Lemma normalize_twice_is_normalize_once_witness :
  Normalizer.oldFormat (Example.scored_with_level 55 "High") = None
  /\ Normalizer.normalize Example.decimal ["a.pdf"] "claim"
       (Normalizer.normalize Example.decimal ["a.pdf"] "claim"
          (Example.scored_with_level 55 "High"))
     = Normalizer.normalize Example.decimal ["a.pdf"] "claim"
         (Example.scored_with_level 55 "High").
Proof.
  split; [reflexivity |].
  apply (normalize_twice_is_normalize_once Example.decimal). reflexivity.
Defined.

Lemma sum_of_equals (c : Q) (l : list Q) :
  Forall (fun v => v == c) l ->
  Canonical.sum l == inject_Z (Z.of_nat (List.length l)) * c.
Proof.
  induction 1 as [| v l Hv _ IH].
  - unfold Canonical.sum. cbn [fold_right List.length Z.of_nat].
    change (inject_Z 0) with 0. lra.
  - cbn [Canonical.sum fold_right List.length]. fold (Canonical.sum l).
    rewrite Nat2Z.inj_succ. unfold Z.succ. rewrite inject_Z_plus.
    change (inject_Z 1) with 1. rewrite IH, Hv. ring.
Qed.

Lemma mean_of_equals (c : Q) (l : list Q) :
  l <> [] -> Forall (fun v => v == c) l -> Canonical.mean l == c.
Proof.
  intros Hne Hall. unfold Canonical.mean. rewrite (sum_of_equals c l Hall).
  assert (Hn : ~ inject_Z (Z.of_nat (List.length l)) == 0).
  { destruct l; [congruence |]. intro H. unfold Qeq in H. simpl in H. lia. }
  rewrite Qmult_comm. apply Qdiv_mult_l. exact Hn.
Qed.

Lemma round_of_integer (x : Q) (z z' : Z) :
  x == inject_Z z -> Canonical.rounds_half_up x z' -> z' = z.
Proof.
  intros Hx [Hlo Hhi].
  assert (Ha : inject_Z z - (1 # 2) < inject_Z z') by lra.
  assert (Hb : inject_Z z' <= inject_Z z + (1 # 2)) by lra.
  unfold Qlt, Qle, Qminus, Qplus, Qopp, inject_Z in Ha, Hb. simpl in Ha, Hb. lia.
Qed.

(** X14.  In the old-format merge, per-file results that all carry the
    same whole score merge to that score, and to the risk level it maps
    to; so a list of one result keeps its score. *)
Theorem equal_scores_merge_to_that_score (Number_toString : Q -> string)
    (files : list string) (claim : string) (b : Batch.t)
    (r : File.t) (rest : list File.t) (z : Z) :
  Batch.results b = Some (r :: rest) ->
  Forall (fun f => exists q, File.authenticity_score f = Some q /\ q == inject_Z z)
         (r :: rest) ->
  let out := Normalizer.normalize Number_toString files claim b in
  Batch.authenticity_score out = Some (inject_Z z)
  /\ Batch.risk_level out = Some (riskOf (inject_Z z)).
Proof.
  intros Hres Hall out. subst out.
  unfold Normalizer.normalize. rewrite (oldFormat_cons _ _ _ Hres).
  unfold Normalizer.mergeResults. cbn [Batch.authenticity_score Batch.risk_level].
  assert (E : Normalizer.average File.authenticity_score (r :: rest) = z).
  { apply (round_of_integer
             (Canonical.mean
                (map (fun f => Canonical.value (File.authenticity_score f)) (r :: rest)))).
    - apply mean_of_equals; [discriminate |].
      apply Forall_map. eapply Forall_impl; [| exact Hall].
      intros f [q [Hq Heq]]. rewrite Hq. exact Heq.
    - apply average_rounds_mean. }
  rewrite E. split; reflexivity.
Qed.

Lemma equal_scores_merge_to_that_score_witness :
  let b := Example.old [Example.file 73] in
  Batch.results b = Some [Example.file 73]
  /\ Forall (fun f => exists q, File.authenticity_score f = Some q /\ q == inject_Z 73)
            [Example.file 73]
  /\ Batch.authenticity_score (Normalizer.normalize Example.decimal ["a.pdf"] "claim" b)
     = Some (inject_Z 73).
Proof.
  cbv zeta.
  assert (H : Forall (fun f => exists q, File.authenticity_score f = Some q
                                         /\ q == inject_Z 73) [Example.file 73]).
  { constructor; [| constructor]. exists 73. split; reflexivity. }
  split; [reflexivity |]. split; [exact H |].
  apply (equal_scores_merge_to_that_score Example.decimal ["a.pdf"] "claim"
           (Example.old [Example.file 73]) (Example.file 73) [] 73 eq_refl H).
Defined.

(** X15.  In the new-format path the reasons and the signals of the
    result are those of the payload whenever the payload has a non-empty
    list, and the one default sentence otherwise.  A list that holds
    just the default sentence is therefore kept as it is: comparing the
    list with the default changes nothing. *)
Theorem lists_kept_unless_empty (Number_toString : Q -> string)
    (files : list string) (b : Batch.t) :
  let r := Normalizer.fillMissing Number_toString files b in
  Batch.reasons r
  = match Batch.reasons b with
    | Some (s :: rest) => Some (s :: rest)
    | _ => Some [default_reason]
    end
  /\ Batch.signals r
     = match Batch.signals b with
       | Some (s :: rest) => Some (s :: rest)
       | _ => Some [default_signal]
       end.
Proof.
  cbv zeta. unfold Normalizer.fillMissing. cbn [Batch.reasons Batch.signals].
  split.
  - destruct (Batch.reasons b) as [[| s [| t rest]] |]; simpl; try reflexivity.
    destruct (s =? default_reason); reflexivity.
  - destruct (Batch.signals b) as [[| s [| t rest]] |]; simpl; try reflexivity.
    destruct (s =? default_signal); reflexivity.
Qed.
